(** * Zones endpoint of the NS1 REST client (rest/zone.go)

    A shallow embedding of [ZonesService]: the five operations [List], [Get],
    [Create], [Update], [Delete] and the two pagination helpers [nextZones]
    and [nextRecords].  The HTTP client the service delegates to
    ([s.client.NewRequest], [s.client.Do], [ParseLink]) lives outside
    zone.go; it is a parameter of the development.  Calls to [Do] thread an
    explicit transport state and are logged, so that "no request is issued"
    is a statement about the log. *)

From Stdlib Require Import ZArith Ascii.
From stdpp Require Import base option list strings gmap.

Module rest.

(** ** net/http: the part of [http.Response] that zone.go reads *)

(** [http.Header] is [map[string][]string]. *)
Record Response := mkResponse {
  StatusCode : Z;
  Header : gmap string (list string)
}.

(** [Header.Get(key)]: the first value stored under [key], or [""].  The
    only key used is ["Link"], which is already in canonical form. *)
Definition Header_Get (h : gmap string (list string)) (key : string) : string :=
  match h !! key with
  | Some (v :: _) => v
  | _ => ""
  end.

Section Zones.

(** ** Types of the dns model package and of the client *)

(** [dns.ZoneRecord] and the zone-level configuration fields of [dns.Zone]
    are opaque to zone.go; [inhabitant] is the zero value of the latter. *)
Context {ZoneRecord ZoneConfig : Type} `{!Inhabited ZoneConfig}.
(** [*http.Request], errors that are neither [*Error] nor one of the two
    sentinels, the [Links] value built by [ParseLink], and the state of
    the transport (the server and the network). *)
Context {Request OpaqueError Links World : Type}.

(** [dns.Zone]: the name, the record collection, and everything else. *)
Record dns_Zone := mkZone {
  Zone : string;
  Records : list ZoneRecord;
  Config : ZoneConfig
}.

(** [var z dns.Zone] *)
Definition zeroZone : dns_Zone :=
  {| Zone := ""; Records := []; Config := inhabitant |}.

(** The non-nil values of Go's [error] interface that zone.go tells apart:
    [*Error] (a structured server error, of which only [Message] is read),
    the two package-level sentinels created with [errors.New], and any
    other error value. *)
Inductive error :=
  | Error (Message : string)
  | ErrZoneExists
  | ErrZoneMissing
  | OtherError (e : OpaqueError).

(** Callers compare errors by equality ([err == ErrZoneMissing]). *)
Global Instance error_eq_dec `{!EqDecision OpaqueError} : EqDecision error.
Proof. solve_decision. Defined.

(** The dynamic type of the destination [v interface{}] handed to [Do]:
    [nil] (Delete), [*[]*dns.Zone] (List, nextZones), [*dns.Zone] (Get,
    nextRecords) and [**dns.Zone] (Create, Update). *)
Inductive shape := VNil | VZoneList | VZone | VZonePtr.

(** What the destination points to.  A Go slice is a list; the nil slice
    and the empty slice are both [[]]. *)
Definition target (sh : shape) : Type :=
  match sh with
  | VNil => unit
  | VZoneList => list dns_Zone
  | VZone => dns_Zone
  | VZonePtr => dns_Zone
  end.

(** [resp, err := s.client.Do(req, v)].  When [err == nil] the response is
    non-nil (zone.go dereferences it unchecked); when [err != nil] it may
    or may not be nil.  In both cases [v] is what the destination holds
    after the call. *)
Inductive DoResult (T : Type) :=
  | DoOk (resp : Response) (v : T)
  | DoErr (resp : option Response) (err : error) (v : T).
Global Arguments DoOk {T} resp v.
Global Arguments DoErr {T} resp err v.

(** The [*Client] behind [s.client]. *)
Record Client := mkClient {
  FollowPagination : bool;
  (** [NewRequest(method, path, body)]: a request or a construction error;
      it performs no I/O. *)
  NewRequest : string → string → option dns_Zone → Request + error;
  (** [Do(req, v)] on a destination of shape [sh] currently holding a
      [target sh], in a given transport state. *)
  Do : ∀ sh : shape, Request → target sh → World → DoResult (target sh) * World;
  ParseLink : string → Links;
  Next : Links → string
}.

(** [type ZonesService service] *)
Record ZonesService := mkService { client : Client }.

(** ** Effects: the transport state and the log of executed requests *)

Record State := mkState {
  world : World;
  calls : list Request
}.

Definition M (A : Type) : Type := State → A * State.

Global Instance M_ret : MRet M := λ A a st, (a, st).
Global Instance M_bind : MBind M := λ A B k m st,
  let '(a, st') := m st in k a st'.

(** One network call: run the executor and append the request to the log. *)
Definition client_Do (c : Client) (sh : shape) (req : Request) (v : target sh)
  : M (DoResult (target sh)) :=
  λ st, let '(r, w') := Do c sh req v (world st) in
        (r, {| world := w'; calls := calls st ++ [req] |}).

(** [ParseLink(resp.Header.Get("Link")).Next()] *)
Definition nextLink (c : Client) (resp : Response) : string :=
  Next c (ParseLink c (Header_Get (Header resp) "Link")).

(** ** The service *)

Section Service.
Variable s : ZonesService.

(** The loop [for z := range tmpZl] that appends [tmpZl[z]] to [*zl] one
    element at a time, and the same loop over [tmpZone.Records]. *)
Definition appendEach {A : Type} (acc : list A) (tmp : list A) : list A :=
  foldl (λ acc x, acc ++ [x]) acc tmp.

(** [nextZones(zl *[]*dns.Zone, uri)].  The result carries the contents
    of [*zl] after the call; the Go pair is either [(nil, err)] or
    [(resp, nil)]. *)
Definition nextZones (zl : list dns_Zone) (uri : string)
  : M (list dns_Zone * (Response + error)) :=
  match NewRequest (client s) "GET" uri None with
  | inr err => mret (zl, inr err)
  | inl req =>
      r ← client_Do (client s) VZoneList req [];
      match r with
      | DoErr _ err _ => mret (zl, inr err)
      | DoOk resp tmpZl => mret (appendEach zl tmpZl, inl resp)
      end
  end.

(** [nextRecords(z *dns.Zone, uri)] *)
Definition nextRecords (z : dns_Zone) (uri : string)
  : M (dns_Zone * (Response + error)) :=
  match NewRequest (client s) "GET" uri None with
  | inr err => mret (z, inr err)
  | inl req =>
      r ← client_Do (client s) VZone req zeroZone;
      match r with
      | DoErr _ err _ => mret (z, inr err)
      | DoOk resp tmpZone =>
          mret ({| Zone := Zone z;
                   Records := appendEach (Records z) (Records tmpZone);
                   Config := Config z |}, inl resp)
      end
  end.

(** The loop [for nextURI != "" { ... }] of [List].  [inr err] is the
    [return nil, resp, err] inside the loop, [inl zl] is leaving the loop
    with [zl]; [None] means the loop is still running when the fuel is
    used up. *)
Fixpoint List_loop (fuel : nat) (zl : list dns_Zone) (nextURI : string)
  : M (option (list dns_Zone + error)) :=
  if decide (nextURI = "") then mret (Some (inl zl)) else
  match fuel with
  | O => mret None
  | S fuel' =>
      '(zl', r) ← nextZones zl nextURI;
      match r with
      | inr err => mret (Some (inr err))
      | inl nextResp => List_loop fuel' zl' (nextLink (client s) nextResp)
      end
  end.

(** [List()] returns [[]*dns.Zone, *http.Response, error]. *)
Definition List (fuel : nat)
  : M (option (list dns_Zone * option Response * option error)) :=
  match NewRequest (client s) "GET" "zones" None with
  | inr err => mret (Some ([], None, Some err))
  | inl req =>
      r ← client_Do (client s) VZoneList req [];
      match r with
      | DoErr resp err _ => mret (Some ([], resp, Some err))
      | DoOk resp zl =>
          if FollowPagination (client s) then
            o ← List_loop fuel zl (nextLink (client s) resp);
            match o with
            | None => mret None
            | Some (inr err) => mret (Some ([], Some resp, Some err))
            | Some (inl zl') => mret (Some (zl', Some resp, None))
            end
          else mret (Some (zl, Some resp, None))
      end
  end.

(** The [switch err.(type) { case *Error: ... }] of [Get], [Update] and
    [Delete]. *)
Definition classifyMissing (err : error) : error :=
  match err with
  | Error Message =>
      if decide (Message = "zone not found") then ErrZoneMissing else err
  | _ => err
  end.

(** The same switch in [Create]. *)
Definition classifyExists (err : error) : error :=
  match err with
  | Error Message =>
      if decide (Message = "zone already exists") then ErrZoneExists else err
  | _ => err
  end.

(** The loop of [Get]. *)
Fixpoint Get_loop (fuel : nat) (z : dns_Zone) (nextURI : string)
  : M (option (dns_Zone + error)) :=
  if decide (nextURI = "") then mret (Some (inl z)) else
  match fuel with
  | O => mret None
  | S fuel' =>
      '(z', r) ← nextRecords z nextURI;
      match r with
      | inr err => mret (Some (inr err))
      | inl nextResp => Get_loop fuel' z' (nextLink (client s) nextResp)
      end
  end.

(** [Get(zone string)] returns [*dns.Zone, *http.Response, error]. *)
Definition Get (zone : string) (fuel : nat)
  : M (option (option dns_Zone * option Response * option error)) :=
  let path := "zones/" +:+ zone in
  match NewRequest (client s) "GET" path None with
  | inr err => mret (Some (None, None, Some err))
  | inl req =>
      r ← client_Do (client s) VZone req zeroZone;
      match r with
      | DoErr resp err _ => mret (Some (None, resp, Some (classifyMissing err)))
      | DoOk resp z =>
          if FollowPagination (client s) then
            o ← Get_loop fuel z (nextLink (client s) resp);
            match o with
            | None => mret None
            | Some (inr err) => mret (Some (None, Some resp, Some err))
            | Some (inl z') => mret (Some (Some z', Some resp, None))
            end
          else mret (Some (Some z, Some resp, None))
      end
  end.

(** [Create(z *dns.Zone)] returns [*http.Response, error].  The first
    component is the caller's zone object after the call. *)
Definition Create (z : dns_Zone) : M (dns_Zone * option Response * option error) :=
  let path := "zones/" +:+ Zone z in
  match NewRequest (client s) "PUT" path (Some z) with
  | inr err => mret (z, None, Some err)
  | inl req =>
      r ← client_Do (client s) VZonePtr req z;
      match r with
      | DoErr resp err z' => mret (z', resp, Some (classifyExists err))
      | DoOk resp z' => mret (z', Some resp, None)
      end
  end.

(** [Update(z *dns.Zone)] returns [*http.Response, error]. *)
Definition Update (z : dns_Zone) : M (dns_Zone * option Response * option error) :=
  let path := "zones/" +:+ Zone z in
  match NewRequest (client s) "POST" path (Some z) with
  | inr err => mret (z, None, Some err)
  | inl req =>
      r ← client_Do (client s) VZonePtr req z;
      match r with
      | DoErr resp err z' => mret (z', resp, Some (classifyMissing err))
      | DoOk resp z' => mret (z', Some resp, None)
      end
  end.

(** [Delete(zone string)] returns [*http.Response, error]. *)
Definition Delete (zone : string) : M (option Response * option error) :=
  let path := "zones/" +:+ zone in
  match NewRequest (client s) "DELETE" path None with
  | inr err => mret (None, Some err)
  | inl req =>
      r ← client_Do (client s) VNil req ();
      match r with
      | DoErr resp err _ => mret (resp, Some (classifyMissing err))
      | DoOk resp _ => mret (Some resp, None)
      end
  end.

(** ** Pagination walks, as the transport sees them *)

(** The value a fresh destination of each shape holds before decoding:
    [[]*dns.Zone{}] in [nextZones], [var tmpZone dns.Zone] in
    [nextRecords]. *)
Definition zero (sh : shape) : target sh :=
  match sh with
  | VNil => ()
  | VZoneList => []
  | VZone => zeroZone
  | VZonePtr => zeroZone
  end.

(** A follow-up page that was fetched: the request sent to the
    continuation pointer, the response, and the decoded payload. *)
Record Page (sh : shape) := mkPage {
  page_req : Request;
  page_resp : Response;
  page_data : target sh
}.
Global Arguments mkPage {sh} _ _ _.
Global Arguments page_req {sh} _.
Global Arguments page_resp {sh} _.
Global Arguments page_data {sh} _.

(** [fetched sh uri w ps uri' w']: from the continuation pointer [uri] and
    the transport state [w], the follow-up pages [ps] are requested and
    served without error, in this order, leaving the pointer [uri'] and
    the state [w'].  The walk is complete when [uri' = ""]. *)
Inductive fetched (sh : shape)
  : string → World → list (Page sh) → string → World → Prop :=
  | fetched_nil uri w : fetched sh uri w [] uri w
  | fetched_cons uri w req resp v w1 ps uri' w' :
      uri ≠ "" →
      NewRequest (client s) "GET" uri None = inl req →
      Do (client s) sh req (zero sh) w = (DoOk resp v, w1) →
      fetched sh (nextLink (client s) resp) w1 ps uri' w' →
      fetched sh uri w (mkPage req resp v :: ps) uri' w'.

(** [fetch_fails sh uri w err reqs w']: the follow-up fetch at the pointer
    [uri] fails with [err], either because the request cannot be built
    (nothing is sent) or because the executor reports an error (one request
    is sent). *)
Inductive fetch_fails (sh : shape) (uri : string) (w : World)
  : error → list Request → World → Prop :=
  | fails_NewRequest err :
      uri ≠ "" →
      NewRequest (client s) "GET" uri None = inr err →
      fetch_fails sh uri w err [] w
  | fails_Do req resp err v w' :
      uri ≠ "" →
      NewRequest (client s) "GET" uri None = inl req →
      Do (client s) sh req (zero sh) w = (DoErr resp err v, w') →
      fetch_fails sh uri w err [req] w'.

(** The last response of a walk that served the first page with [resp1]
    and then the follow-up pages [ps]. *)
Definition lastResponse {sh : shape} (resp1 : Response) (ps : list (Page sh))
  : Response :=
  default resp1 (last (page_resp <$> ps)).

End Service.
End Zones.

Global Arguments dns_Zone : clear implicits.
Global Arguments error : clear implicits.
Global Arguments Client : clear implicits.
Global Arguments ZonesService : clear implicits.
Global Arguments State : clear implicits.

(** ** Two concrete transports, for the worked examples *)

Module Example.

(** Requests are a method and a URL; records are their names; the only
    configuration field is a TTL (zero value [0]); the [Link] header
    holds the bare URI of the next page, so [ParseLink] and [Next] have
    nothing to do.  The transport state is the number of requests the
    network still carries before the connection drops. *)
Definition Req : Type := string * string.
Definition ZoneT : Type := dns_Zone string nat.
Definition Err : Type := error string.

Definition zone (name : string) (recs : list string) (ttl : nat) : ZoneT :=
  mkZone name recs ttl.

Definition reply (code : Z) (next : string) : Response :=
  mkResponse code (if decide (next = "") then ∅ else {[ "Link" := [next] ]}).

(** A path is accepted unless it holds a percent sign (an invalid escape). *)
Definition validPath (path : string) : bool :=
  negb (existsb (Ascii.eqb "%"%char) (String.list_ascii_of_string path)).

Definition exNewRequest (endpointOK : bool) (method path : string)
  (body : option ZoneT) : Req + Err :=
  if endpointOK && validPath path then inl (method, path)
  else inr (OtherError "invalid URL").

Definition notFound {T : Type} (v : T) : DoResult (OpaqueError:=string) T :=
  DoErr (Some (reply 404 "")) (Error "zone not found") v.

(** What the server answers to one request. *)
Definition serve (sh : shape) (req : Req)
  : target (ZoneRecord:=string) (ZoneConfig:=nat) sh
    → DoResult (OpaqueError:=string) (target sh) :=
  let '(method, url) := req in
  match sh with
  | VZoneList => λ v,
      if String.eqb url "zones" then
        DoOk (reply 200 "zones?page=2") [zone "a.com" [] 3600; zone "b.com" [] 3600]
      else if String.eqb url "zones?page=2" then
        DoOk (reply 200 "zones?page=3") [zone "c.com" [] 3600]
      else if String.eqb url "zones?page=3" then
        DoOk (reply 200 "") [zone "d.com" [] 3600]
      else notFound v
  | VZone => λ v,
      if String.eqb url "zones/a.com" then
        DoOk (reply 200 "zones/a.com?page=2") (zone "a.com" ["www"; "mail"] 3600)
      else if String.eqb url "zones/a.com?page=2" then
        DoOk (reply 200 "") (zone "a.com" ["ftp"] 60)
      else notFound v
  | VZonePtr => λ v,
      if String.eqb method "PUT" then
        if String.eqb url "zones/a.com" then
          DoErr (Some (reply 400 "")) (Error "zone already exists") v
        else DoOk (reply 200 "") (zone (Zone v) (Records v) 3600)
      else
        if String.eqb url "zones/a.com" then DoOk (reply 200 "") v
        else notFound v
  | VNil => λ v,
      if String.eqb url "zones/a.com" then DoOk (reply 200 "") v
      else notFound v
  end.

Definition exDo (sh : shape) (req : Req)
  (v : target (ZoneRecord:=string) (ZoneConfig:=nat) sh) (w : nat)
  : DoResult (OpaqueError:=string) (target sh) * nat :=
  match w with
  | O => (DoErr None (OtherError "connection reset") v, O)
  | S w' => (serve sh req v, w')
  end.

Definition exClient (follow endpointOK : bool)
  : Client string nat Req string string nat :=
  {| FollowPagination := follow;
     NewRequest := exNewRequest endpointOK;
     Do := exDo;
     ParseLink := id;
     Next := id |}.

(** The service over the scripted server, following pagination or not. *)
Definition svc (follow : bool) : ZonesService string nat Req string string nat :=
  mkService (exClient follow true).

(** The service of a client whose endpoint is misconfigured: no request
    can be built. *)
Definition svcNoEndpoint : ZonesService string nat Req string string nat :=
  mkService (exClient true false).

(** A transport that answers every request with the same error. *)
Definition failDo (resp : option Response) (err : Err) (sh : shape) (req : Req)
  (v : target (ZoneRecord:=string) (ZoneConfig:=nat) sh) (w : nat)
  : DoResult (target sh) * nat :=
  (DoErr resp err v, w).

Definition svcFailing (resp : option Response) (err : Err)
  : ZonesService string nat Req string string nat :=
  mkService {| FollowPagination := true;
               NewRequest := exNewRequest true;
               Do := failDo resp err;
               ParseLink := id;
               Next := id |}.

Definition st0 (w : nat) : State Req nat := mkState w [].

(** The pages of the zone listing and of the zone a.com, as served. *)
Definition listReq : Req := ("GET", "zones").
Definition listResp : Response := reply 200 "zones?page=2".
Definition listZones : list ZoneT := [zone "a.com" [] 3600; zone "b.com" [] 3600].

Definition page2 : Page (Request:=Req) VZoneList :=
  mkPage (sh:=VZoneList) ("GET", "zones?page=2") (reply 200 "zones?page=3")
    [zone "c.com" [] 3600].
Definition page3 : Page (Request:=Req) VZoneList :=
  mkPage (sh:=VZoneList) ("GET", "zones?page=3") (reply 200 "")
    [zone "d.com" [] 3600].

Definition zoneReq : Req := ("GET", "zones/a.com").
Definition zoneResp : Response := reply 200 "zones/a.com?page=2".
Definition zonePage1 : ZoneT := zone "a.com" ["www"; "mail"] 3600.
Definition zonePage2 : Page (Request:=Req) VZone :=
  mkPage (sh:=VZone) ("GET", "zones/a.com?page=2") (reply 200 "")
    (zone "a.com" ["ftp"] 60).

Definition connectionReset : Err := OtherError "connection reset".
Definition invalidURL : Err := OtherError "invalid URL".

(** A server whose listing never ends: every page of zones announces the
    URL it was requested at as the next page.  The transport state counts
    the requests served. *)
Definition loopDo (sh : shape) (req : Req)
  : target (ZoneRecord:=string) (ZoneConfig:=nat) sh → nat
    → DoResult (OpaqueError:=string) (target sh) * nat :=
  match sh with
  | VZoneList => λ v w, (DoOk (reply 200 (snd req)) [zone "a.com" [] 3600], S w)
  | VZone => λ v w,
      (DoOk (reply 200 (snd req)) (zone "a.com" ["www"] 3600), S w)
  | _ => λ v w, (DoErr None connectionReset v, w)
  end.

(** A server on which the zone a.com disappears after its first page was
    served: the page announces a second one, which is not found. *)
Definition vanishDo (sh : shape) (req : Req)
  : target (ZoneRecord:=string) (ZoneConfig:=nat) sh → nat
    → DoResult (OpaqueError:=string) (target sh) * nat :=
  match sh with
  | VZone => λ v w,
      if String.eqb (snd req) "zones/a.com" then
        (DoOk zoneResp zonePage1, S w)
      else (notFound v, S w)
  | _ => λ v w, (notFound v, S w)
  end.

Definition svcVanishing : ZonesService string nat Req string string nat :=
  mkService {| FollowPagination := true;
               NewRequest := exNewRequest true;
               Do := vanishDo;
               ParseLink := id;
               Next := id |}.

Definition svcLooping : ZonesService string nat Req string string nat :=
  mkService {| FollowPagination := true;
               NewRequest := exNewRequest true;
               Do := loopDo;
               ParseLink := id;
               Next := id |}.

End Example.

(** ** Properties of the service *)

Section Properties.
Context {ZoneRecord ZoneConfig : Type} `{!Inhabited ZoneConfig}.
Context {Request OpaqueError Links World : Type}.
Variable s : ZonesService ZoneRecord ZoneConfig Request OpaqueError Links World.

Local Abbreviation Zone' := (dns_Zone ZoneRecord ZoneConfig).
Local Abbreviation St := (State Request World).

(** Unfold the monad down to state-passing. *)
Ltac run :=
  unfold mbind, M_bind, mret, M_ret, client_Do; simpl.

Lemma appendEach_app {A : Type} (acc tmp : list A) :
  appendEach acc tmp = acc ++ tmp.
Proof.
  unfold appendEach. revert acc.
  induction tmp as [|x tmp IH]; intros acc; simpl.
  - by rewrite app_nil_r.
  - rewrite IH. by rewrite <- app_assoc.
Qed.

(** *** One step of each helper *)

Lemma nextZones_ok zl uri req resp v w w1 log :
  NewRequest (client s) "GET" uri None = inl req →
  Do (client s) VZoneList req [] w = (DoOk resp v, w1) →
  nextZones s zl uri (mkState w log)
  = ((zl ++ v, inl resp), mkState w1 (log ++ [req])).
Proof.
  intros Hreq Hdo. unfold nextZones. rewrite Hreq. run. rewrite Hdo.
  by rewrite appendEach_app.
Qed.

Lemma nextZones_fails zl uri w err reqs w' log :
  fetch_fails s VZoneList uri w err reqs w' →
  nextZones s zl uri (mkState w log)
  = ((zl, inr err), mkState w' (log ++ reqs)).
Proof.
  intros Hf. unfold nextZones.
  destruct Hf as [err _ Hreq | req resp err v w' _ Hreq Hdo]; rewrite Hreq; run.
  - by rewrite app_nil_r.
  - simpl in Hdo. by rewrite Hdo.
Qed.

Lemma nextRecords_ok z uri req resp v w w1 log :
  NewRequest (client s) "GET" uri None = inl req →
  Do (client s) VZone req zeroZone w = (DoOk resp v, w1) →
  nextRecords s z uri (mkState w log)
  = ((mkZone (Zone z) (Records z ++ Records v) (Config z), inl resp),
     mkState w1 (log ++ [req])).
Proof.
  intros Hreq Hdo. unfold nextRecords. rewrite Hreq. run. rewrite Hdo.
  by rewrite appendEach_app.
Qed.

Lemma nextRecords_fails z uri w err reqs w' log :
  fetch_fails s VZone uri w err reqs w' →
  nextRecords s z uri (mkState w log)
  = ((z, inr err), mkState w' (log ++ reqs)).
Proof.
  intros Hf. unfold nextRecords.
  destruct Hf as [err _ Hreq | req resp err v w' _ Hreq Hdo]; rewrite Hreq; run.
  - by rewrite app_nil_r.
  - simpl in Hdo. by rewrite Hdo.
Qed.

(** *** The loops *)

Lemma List_loop_done fuel zl (st : St) :
  List_loop s fuel zl "" st = (Some (inl zl), st).
Proof. by destruct fuel. Qed.

Lemma List_loop_step fuel zl uri (st : St) :
  uri ≠ "" →
  List_loop s (S fuel) zl uri st
  = (let '(zl', r, st') := nextZones s zl uri st in
     match r with
     | inr err => (Some (inr err), st')
     | inl nextResp => List_loop s fuel zl' (nextLink (client s) nextResp) st'
     end).
Proof.
  intros Hne. simpl. destruct (decide (uri = "")) as [|_]; [done|].
  run. by destruct (nextZones s zl uri st) as [[zl' [r|e]] st'].
Qed.

Lemma List_loop_fetched uri w ps uri' w' :
  fetched s VZoneList uri w ps uri' w' →
  ∀ fuel zl log,
    List_loop s (length ps + fuel) zl uri (mkState w log)
    = List_loop s fuel (zl ++ concat (page_data <$> ps)) uri'
        (mkState w' (log ++ (page_req <$> ps))).
Proof.
  induction 1 as [uri w | uri w req resp v w1 ps uri' w' Hne Hreq Hdo _ IH];
    intros fuel zl log.
  - simpl. by rewrite !app_nil_r.
  - cbn [length Nat.add]. rewrite List_loop_step by done.
    rewrite (nextZones_ok _ _ _ _ _ _ _ _ Hreq Hdo).
    rewrite IH. simpl. by rewrite <- !app_assoc.
Qed.

Lemma List_loop_fails fuel zl uri w err reqs w' log :
  fetch_fails s VZoneList uri w err reqs w' →
  List_loop s (S fuel) zl uri (mkState w log)
  = (Some (inr err), mkState w' (log ++ reqs)).
Proof.
  intros Hf. rewrite List_loop_step by (by destruct Hf).
  by rewrite (nextZones_fails _ _ _ _ _ _ _ Hf).
Qed.

Lemma Get_loop_done fuel z (st : St) :
  Get_loop s fuel z "" st = (Some (inl z), st).
Proof. by destruct fuel. Qed.

Lemma Get_loop_step fuel z uri (st : St) :
  uri ≠ "" →
  Get_loop s (S fuel) z uri st
  = (let '(z', r, st') := nextRecords s z uri st in
     match r with
     | inr err => (Some (inr err), st')
     | inl nextResp => Get_loop s fuel z' (nextLink (client s) nextResp) st'
     end).
Proof.
  intros Hne. simpl. destruct (decide (uri = "")) as [|_]; [done|].
  run. by destruct (nextRecords s z uri st) as [[z' [r|e]] st'].
Qed.

Lemma Get_loop_fetched uri w ps uri' w' :
  fetched s VZone uri w ps uri' w' →
  ∀ fuel (z : Zone') log,
    Get_loop s (length ps + fuel) z uri (mkState w log)
    = Get_loop s fuel
        (mkZone (Zone z)
           (Records z ++ concat (Records <$> (page_data <$> ps))) (Config z))
        uri' (mkState w' (log ++ (page_req <$> ps))).
Proof.
  induction 1 as [uri w | uri w req resp v w1 ps uri' w' Hne Hreq Hdo _ IH];
    intros fuel z log.
  - simpl. rewrite !app_nil_r. by destruct z.
  - cbn [length Nat.add]. rewrite Get_loop_step by done.
    rewrite (nextRecords_ok _ _ _ _ _ _ _ _ Hreq Hdo).
    rewrite IH. simpl. by rewrite <- !app_assoc.
Qed.

Lemma Get_loop_fails fuel z uri w err reqs w' log :
  fetch_fails s VZone uri w err reqs w' →
  Get_loop s (S fuel) z uri (mkState w log)
  = (Some (inr err), mkState w' (log ++ reqs)).
Proof.
  intros Hf. rewrite Get_loop_step by (by destruct Hf).
  by rewrite (nextRecords_fails _ _ _ _ _ _ _ Hf).
Qed.

(** *** Whole walks of [List] and [Get] *)

Lemma List_walk_succeeds req resp1 zl1 w w1 ps w' log fuel :
  FollowPagination (client s) = true →
  NewRequest (client s) "GET" "zones" None = inl req →
  Do (client s) VZoneList req [] w = (DoOk resp1 zl1, w1) →
  fetched s VZoneList (nextLink (client s) resp1) w1 ps "" w' →
  length ps ≤ fuel →
  List s fuel (mkState w log)
  = (Some (zl1 ++ concat (page_data <$> ps), Some resp1, None),
     mkState w' (log ++ req :: (page_req <$> ps))).
Proof.
  intros Hfollow Hreq Hdo Hps Hfuel.
  unfold List. rewrite Hreq. run. rewrite Hdo, Hfollow.
  replace fuel with (length ps + (fuel - length ps)) by lia.
  rewrite (List_loop_fetched _ _ _ _ _ Hps), List_loop_done.
  by rewrite <- app_assoc.
Qed.

Lemma List_walk_fails req resp1 zl1 w w1 ps uri w2 err reqs w' log fuel :
  FollowPagination (client s) = true →
  NewRequest (client s) "GET" "zones" None = inl req →
  Do (client s) VZoneList req [] w = (DoOk resp1 zl1, w1) →
  fetched s VZoneList (nextLink (client s) resp1) w1 ps uri w2 →
  fetch_fails s VZoneList uri w2 err reqs w' →
  length ps < fuel →
  List s fuel (mkState w log)
  = (Some ([], Some resp1, Some err),
     mkState w' (log ++ req :: (page_req <$> ps) ++ reqs)).
Proof.
  intros Hfollow Hreq Hdo Hps Hfail Hfuel.
  unfold List. rewrite Hreq. run. rewrite Hdo, Hfollow.
  replace fuel with (length ps + S (fuel - S (length ps))) by lia.
  rewrite (List_loop_fetched _ _ _ _ _ Hps).
  rewrite (List_loop_fails _ _ _ _ _ _ _ _ Hfail).
  by rewrite <- !app_assoc.
Qed.

Lemma Get_walk_succeeds zone req resp1 z1 w w1 ps w' log fuel :
  FollowPagination (client s) = true →
  NewRequest (client s) "GET" ("zones/" +:+ zone) None = inl req →
  Do (client s) VZone req zeroZone w = (DoOk resp1 z1, w1) →
  fetched s VZone (nextLink (client s) resp1) w1 ps "" w' →
  length ps ≤ fuel →
  Get s zone fuel (mkState w log)
  = (Some (Some (mkZone (Zone z1)
                   (Records z1 ++ concat (Records <$> (page_data <$> ps)))
                   (Config z1)),
           Some resp1, None),
     mkState w' (log ++ req :: (page_req <$> ps))).
Proof.
  intros Hfollow Hreq Hdo Hps Hfuel.
  unfold Get. rewrite Hreq. run. rewrite Hdo, Hfollow.
  replace fuel with (length ps + (fuel - length ps)) by lia.
  rewrite (Get_loop_fetched _ _ _ _ _ Hps), Get_loop_done.
  by rewrite <- app_assoc.
Qed.

Lemma Get_walk_fails zone req resp1 z1 w w1 ps uri w2 err reqs w' log fuel :
  FollowPagination (client s) = true →
  NewRequest (client s) "GET" ("zones/" +:+ zone) None = inl req →
  Do (client s) VZone req zeroZone w = (DoOk resp1 z1, w1) →
  fetched s VZone (nextLink (client s) resp1) w1 ps uri w2 →
  fetch_fails s VZone uri w2 err reqs w' →
  length ps < fuel →
  Get s zone fuel (mkState w log)
  = (Some (None, Some resp1, Some err),
     mkState w' (log ++ req :: (page_req <$> ps) ++ reqs)).
Proof.
  intros Hfollow Hreq Hdo Hps Hfail Hfuel.
  unfold Get. rewrite Hreq. run. rewrite Hdo, Hfollow.
  replace fuel with (length ps + S (fuel - S (length ps))) by lia.
  rewrite (Get_loop_fetched _ _ _ _ _ Hps).
  rewrite (Get_loop_fails _ _ _ _ _ _ _ _ Hfail).
  by rewrite <- !app_assoc.
Qed.

(** *** The first call fails *)

Lemma List_first_call_fails req resp err v w w' log fuel :
  NewRequest (client s) "GET" "zones" None = inl req →
  Do (client s) VZoneList req [] w = (DoErr resp err v, w') →
  List s fuel (mkState w log)
  = (Some ([], resp, Some err), mkState w' (log ++ [req])).
Proof. intros Hreq Hdo. unfold List. rewrite Hreq. run. by rewrite Hdo. Qed.

Lemma Get_first_call_fails zone req resp err v w w' log fuel :
  NewRequest (client s) "GET" ("zones/" +:+ zone) None = inl req →
  Do (client s) VZone req zeroZone w = (DoErr resp err v, w') →
  Get s zone fuel (mkState w log)
  = (Some (None, resp, Some (classifyMissing err)), mkState w' (log ++ [req])).
Proof. intros Hreq Hdo. unfold Get. rewrite Hreq. run. by rewrite Hdo. Qed.

Lemma Create_call_fails (z : Zone') req resp err z' w w' log :
  NewRequest (client s) "PUT" ("zones/" +:+ Zone z) (Some z) = inl req →
  Do (client s) VZonePtr req z w = (DoErr resp err z', w') →
  Create s z (mkState w log)
  = ((z', resp, Some (classifyExists err)), mkState w' (log ++ [req])).
Proof. intros Hreq Hdo. unfold Create. rewrite Hreq. run. by rewrite Hdo. Qed.

Lemma Update_call_fails (z : Zone') req resp err z' w w' log :
  NewRequest (client s) "POST" ("zones/" +:+ Zone z) (Some z) = inl req →
  Do (client s) VZonePtr req z w = (DoErr resp err z', w') →
  Update s z (mkState w log)
  = ((z', resp, Some (classifyMissing err)), mkState w' (log ++ [req])).
Proof. intros Hreq Hdo. unfold Update. rewrite Hreq. run. by rewrite Hdo. Qed.

Lemma Delete_call_fails zone req resp err v w w' log :
  NewRequest (client s) "DELETE" ("zones/" +:+ zone) None = inl req →
  Do (client s) VNil req () w = (DoErr resp err v, w') →
  Delete s zone (mkState w log)
  = ((resp, Some (classifyMissing err)), mkState w' (log ++ [req])).
Proof. intros Hreq Hdo. unfold Delete. rewrite Hreq. run. by rewrite Hdo. Qed.

(** *** The two classifiers *)

Lemma classifyMissing_found :
  classifyMissing (Error "zone not found")
  = (ErrZoneMissing : error OpaqueError).
Proof. reflexivity. Qed.

Lemma classifyMissing_other (err : error OpaqueError) :
  err ≠ Error "zone not found" → classifyMissing err = err.
Proof.
  destruct err as [m| | |e]; simpl; try done.
  destruct (decide (m = "zone not found")) as [->|]; done.
Qed.

Lemma classifyExists_found :
  classifyExists (Error "zone already exists")
  = (ErrZoneExists : error OpaqueError).
Proof. reflexivity. Qed.

Lemma classifyExists_other (err : error OpaqueError) :
  err ≠ Error "zone already exists" → classifyExists err = err.
Proof.
  destruct err as [m| | |e]; simpl; try done.
  destruct (decide (m = "zone already exists")) as [->|]; done.
Qed.

(** *** Lists of pages *)

Lemma length_concat_pages {A : Type} (pages : list (list A)) :
  length (concat pages) = sum_list_with length pages.
Proof.
  induction pages as [|p pages IH]; simpl; [done|].
  by rewrite length_app, IH.
Qed.

Lemma concat_page_in_place {A : Type} (pages : list (list A)) i p :
  pages !! i = Some p →
  concat pages = concat (take i pages) ++ p ++ concat (drop (S i) pages).
Proof.
  intros Hi. rewrite <- (take_drop_middle _ _ _ Hi) at 1.
  by rewrite concat_app.
Qed.

(** *** Pagination *)

(** C1. When pagination is followed and the first page and every follow-up
    page are fetched without error, [List] returns (given fuel for the
    follow-up pages) the concatenation of the pages' zone lists in fetch
    order; its length is the sum of the pages' lengths; and each page
    sits unchanged in the result, right after the pages fetched before
    it. *)
Theorem List_returns_pages_in_fetch_order
    req resp1 zl1 w w1 ps w' log fuel :
  FollowPagination (client s) = true →
  NewRequest (client s) "GET" "zones" None = inl req →
  Do (client s) VZoneList req [] w = (DoOk resp1 zl1, w1) →
  fetched s VZoneList (nextLink (client s) resp1) w1 ps "" w' →
  length ps ≤ fuel →
  ∃ zl resp st',
    List s fuel (mkState w log) = (Some (zl, resp, None), st') ∧
    zl = concat (zl1 :: (page_data <$> ps)) ∧
    length zl = sum_list_with length (zl1 :: (page_data <$> ps)) ∧
    ∀ i p, (zl1 :: (page_data <$> ps)) !! i = Some p →
      zl = concat (take i (zl1 :: (page_data <$> ps))) ++ p
           ++ concat (drop (S i) (zl1 :: (page_data <$> ps))).
Proof.
  intros Hfollow Hreq Hdo Hps Hfuel.
  eexists _, _, _. split; [|split; [reflexivity|split]].
  - by rewrite (List_walk_succeeds _ _ _ _ _ _ _ log _ Hfollow Hreq Hdo Hps Hfuel).
  - apply length_concat_pages.
  - intros i p Hi. by apply concat_page_in_place.
Qed.

(** C2. When pagination is followed and every page of a zone is fetched
    without error, [Get] returns a zone whose records are the
    concatenation of the pages' record collections in fetch order, and
    whose name and configuration are those decoded from the first page. *)
Theorem Get_merges_records_keeps_first_page_fields
    zone req resp1 z1 w w1 ps w' log fuel :
  FollowPagination (client s) = true →
  NewRequest (client s) "GET" ("zones/" +:+ zone) None = inl req →
  Do (client s) VZone req zeroZone w = (DoOk resp1 z1, w1) →
  fetched s VZone (nextLink (client s) resp1) w1 ps "" w' →
  length ps ≤ fuel →
  ∃ z resp st',
    Get s zone fuel (mkState w log) = (Some (Some z, resp, None), st') ∧
    Records z = concat (Records <$> (z1 :: (page_data <$> ps))) ∧
    Zone z = Zone z1 ∧
    Config z = Config z1.
Proof.
  intros Hfollow Hreq Hdo Hps Hfuel.
  eexists _, _, _. split.
  - by rewrite (Get_walk_succeeds _ _ _ _ _ _ _ _ log _ Hfollow Hreq Hdo Hps Hfuel).
  - done.
Qed.

(** C3. When a follow-up page fetch of a [List] walk fails (the request
    cannot be built, or the executor reports an error), [List] returns the
    nil zone list together with that error, whatever the earlier pages
    held, and the failed fetch is the last thing the walk did. *)
Theorem List_follow_up_failure_returns_nil
    req resp1 zl1 w w1 ps uri w2 err reqs w' log fuel :
  FollowPagination (client s) = true →
  NewRequest (client s) "GET" "zones" None = inl req →
  Do (client s) VZoneList req [] w = (DoOk resp1 zl1, w1) →
  fetched s VZoneList (nextLink (client s) resp1) w1 ps uri w2 →
  fetch_fails s VZoneList uri w2 err reqs w' →
  length ps < fuel →
  ∃ resp st',
    List s fuel (mkState w log) = (Some ([], resp, Some err), st') ∧
    calls st' = log ++ req :: (page_req <$> ps) ++ reqs.
Proof.
  intros Hfollow Hreq Hdo Hps Hfail Hfuel.
  eexists _, _. split.
  - by rewrite (List_walk_fails _ _ _ _ _ _ _ _ _ _ _ log _
                  Hfollow Hreq Hdo Hps Hfail Hfuel).
  - done.
Qed.

(** C4, amended. When a follow-up page fetch fails, the response returned
    with the error is the response to the first request of the walk,
    however many follow-up pages were fetched before the failure; this
    holds for [List] and for [Get]. *)
Theorem failed_walk_returns_first_response :
  FollowPagination (client s) = true →
  (∀ req resp1 zl1 w w1 ps uri w2 err reqs w' log fuel,
     NewRequest (client s) "GET" "zones" None = inl req →
     Do (client s) VZoneList req [] w = (DoOk resp1 zl1, w1) →
     fetched s VZoneList (nextLink (client s) resp1) w1 ps uri w2 →
     fetch_fails s VZoneList uri w2 err reqs w' →
     length ps < fuel →
     ∃ st',
       List s fuel (mkState w log) = (Some ([], Some resp1, Some err), st')) ∧
  (∀ zone req resp1 z1 w w1 ps uri w2 err reqs w' log fuel,
     NewRequest (client s) "GET" ("zones/" +:+ zone) None = inl req →
     Do (client s) VZone req zeroZone w = (DoOk resp1 z1, w1) →
     fetched s VZone (nextLink (client s) resp1) w1 ps uri w2 →
     fetch_fails s VZone uri w2 err reqs w' →
     length ps < fuel →
     ∃ st',
       Get s zone fuel (mkState w log) = (Some (None, Some resp1, Some err), st')).
Proof.
  intros Hfollow. split.
  - intros * Hreq Hdo Hps Hfail Hfuel. eexists.
    by rewrite (List_walk_fails _ _ _ _ _ _ _ _ _ _ _ log _
                  Hfollow Hreq Hdo Hps Hfail Hfuel).
  - intros * Hreq Hdo Hps Hfail Hfuel. eexists.
    by rewrite (Get_walk_fails _ _ _ _ _ _ _ _ _ _ _ _ log _
                  Hfollow Hreq Hdo Hps Hfail Hfuel).
Qed.

(** C5, amended. When pagination is followed and all pages are fetched
    without error, [List] returns the full list, no error, and the
    response to the first request of the walk. *)
Theorem List_success_returns_first_response
    req resp1 zl1 w w1 ps w' log fuel :
  FollowPagination (client s) = true →
  NewRequest (client s) "GET" "zones" None = inl req →
  Do (client s) VZoneList req [] w = (DoOk resp1 zl1, w1) →
  fetched s VZoneList (nextLink (client s) resp1) w1 ps "" w' →
  length ps ≤ fuel →
  ∃ st',
    List s fuel (mkState w log)
    = (Some (concat (zl1 :: (page_data <$> ps)), Some resp1, None), st').
Proof.
  intros Hfollow Hreq Hdo Hps Hfuel. eexists.
  by rewrite (List_walk_succeeds _ _ _ _ _ _ _ log _ Hfollow Hreq Hdo Hps Hfuel).
Qed.

(** C6. With [FollowPagination] off, [List] and [Get] return what the
    first response decoded to and send exactly one request, whatever the
    [Link] header of that response says. *)
Theorem no_follow_returns_first_page_only :
  FollowPagination (client s) = false →
  (∀ req resp zl w w1 log fuel,
     NewRequest (client s) "GET" "zones" None = inl req →
     Do (client s) VZoneList req [] w = (DoOk resp zl, w1) →
     List s fuel (mkState w log)
     = (Some (zl, Some resp, None), mkState w1 (log ++ [req]))) ∧
  (∀ zone req resp z w w1 log fuel,
     NewRequest (client s) "GET" ("zones/" +:+ zone) None = inl req →
     Do (client s) VZone req zeroZone w = (DoOk resp z, w1) →
     Get s zone fuel (mkState w log)
     = (Some (Some z, Some resp, None), mkState w1 (log ++ [req]))).
Proof.
  intros Hfollow. split.
  - intros * Hreq Hdo. unfold List. rewrite Hreq. run. by rewrite Hdo, Hfollow.
  - intros * Hreq Hdo. unfold Get. rewrite Hreq. run. by rewrite Hdo, Hfollow.
Qed.

(** *** Error classification *)

(** C7. When the executor fails in [Create], a structured error with the
    message "zone already exists" becomes the sentinel [ErrZoneExists],
    which is no message-bearing error and differs from the other
    sentinel; every other error is returned as it is.  [List], [Get],
    [Update] and [Delete] return that structured error unchanged. *)
Theorem zone_exists_classified_by_Create_only :
  (∀ (z : Zone') req resp err z' w w' log,
     NewRequest (client s) "PUT" ("zones/" +:+ Zone z) (Some z) = inl req →
     Do (client s) VZonePtr req z w = (DoErr resp err z', w') →
     ∃ e zr r st',
       Create s z (mkState w log) = ((zr, r, Some e), st') ∧
       (err = Error "zone already exists" → e = ErrZoneExists) ∧
       (err ≠ Error "zone already exists" → e = err)) ∧
  (∀ m, (ErrZoneExists : error OpaqueError) ≠ Error m) ∧
  (ErrZoneExists : error OpaqueError) ≠ ErrZoneMissing ∧
  (∀ req resp v w w' log fuel,
     NewRequest (client s) "GET" "zones" None = inl req →
     Do (client s) VZoneList req [] w
       = (DoErr resp (Error "zone already exists") v, w') →
     ∃ zl r st',
       List s fuel (mkState w log)
       = (Some (zl, r, Some (Error "zone already exists")), st')) ∧
  (∀ zone req resp v w w' log fuel,
     NewRequest (client s) "GET" ("zones/" +:+ zone) None = inl req →
     Do (client s) VZone req zeroZone w
       = (DoErr resp (Error "zone already exists") v, w') →
     ∃ z r st',
       Get s zone fuel (mkState w log)
       = (Some (z, r, Some (Error "zone already exists")), st')) ∧
  (∀ (z : Zone') req resp z' w w' log,
     NewRequest (client s) "POST" ("zones/" +:+ Zone z) (Some z) = inl req →
     Do (client s) VZonePtr req z w
       = (DoErr resp (Error "zone already exists") z', w') →
     ∃ zr r st',
       Update s z (mkState w log)
       = ((zr, r, Some (Error "zone already exists")), st')) ∧
  (∀ zone req resp v w w' log,
     NewRequest (client s) "DELETE" ("zones/" +:+ zone) None = inl req →
     Do (client s) VNil req () w
       = (DoErr resp (Error "zone already exists") v, w') →
     ∃ r st',
       Delete s zone (mkState w log)
       = ((r, Some (Error "zone already exists")), st')).
Proof.
  repeat split; try done.
  - intros * Hreq Hdo. eexists _, _, _, _.
    rewrite (Create_call_fails _ _ _ _ _ _ _ log Hreq Hdo).
    split; [reflexivity|]. split.
    + intros ->. apply classifyExists_found.
    + apply classifyExists_other.
  - intros * Hreq Hdo. eexists _, _, _.
    by rewrite (List_first_call_fails _ _ _ _ _ _ log fuel Hreq Hdo).
  - intros * Hreq Hdo. eexists _, _, _.
    by rewrite (Get_first_call_fails _ _ _ _ _ _ _ log fuel Hreq Hdo).
  - intros * Hreq Hdo. eexists _, _, _.
    by rewrite (Update_call_fails _ _ _ _ _ _ _ log Hreq Hdo).
  - intros * Hreq Hdo. eexists _, _.
    by rewrite (Delete_call_fails _ _ _ _ _ _ _ log Hreq Hdo).
Qed.

(** C8. When the executor fails in [Get], [Update] or [Delete], a
    structured error with the message "zone not found" becomes the one
    sentinel [ErrZoneMissing], and every other error is returned as it
    is. *)
Theorem zone_not_found_classified_as_missing :
  (∀ zone req resp err v w w' log fuel,
     NewRequest (client s) "GET" ("zones/" +:+ zone) None = inl req →
     Do (client s) VZone req zeroZone w = (DoErr resp err v, w') →
     ∃ e z r st',
       Get s zone fuel (mkState w log) = (Some (z, r, Some e), st') ∧
       (err = Error "zone not found" → e = ErrZoneMissing) ∧
       (err ≠ Error "zone not found" → e = err)) ∧
  (∀ (z : Zone') req resp err z' w w' log,
     NewRequest (client s) "POST" ("zones/" +:+ Zone z) (Some z) = inl req →
     Do (client s) VZonePtr req z w = (DoErr resp err z', w') →
     ∃ e zr r st',
       Update s z (mkState w log) = ((zr, r, Some e), st') ∧
       (err = Error "zone not found" → e = ErrZoneMissing) ∧
       (err ≠ Error "zone not found" → e = err)) ∧
  (∀ zone req resp err v w w' log,
     NewRequest (client s) "DELETE" ("zones/" +:+ zone) None = inl req →
     Do (client s) VNil req () w = (DoErr resp err v, w') →
     ∃ e r st',
       Delete s zone (mkState w log) = ((r, Some e), st') ∧
       (err = Error "zone not found" → e = ErrZoneMissing) ∧
       (err ≠ Error "zone not found" → e = err)).
Proof.
  repeat split.
  - intros * Hreq Hdo. eexists _, _, _, _.
    rewrite (Get_first_call_fails _ _ _ _ _ _ _ log fuel Hreq Hdo).
    split; [reflexivity|]. split.
    + intros ->. apply classifyMissing_found.
    + apply classifyMissing_other.
  - intros * Hreq Hdo. eexists _, _, _, _.
    rewrite (Update_call_fails _ _ _ _ _ _ _ log Hreq Hdo).
    split; [reflexivity|]. split.
    + intros ->. apply classifyMissing_found.
    + apply classifyMissing_other.
  - intros * Hreq Hdo. eexists _, _, _.
    rewrite (Delete_call_fails _ _ _ _ _ _ _ log Hreq Hdo).
    split; [reflexivity|]. split.
    + intros ->. apply classifyMissing_found.
    + apply classifyMissing_other.
Qed.

(** C9. When the request of an operation cannot be built, the operation
    returns the construction error and a nil response, and leaves the
    state as it was: the log of executed requests does not grow. *)
Theorem construction_error_returned_without_call :
  (∀ err (st : St) fuel,
     NewRequest (client s) "GET" "zones" None = inr err →
     List s fuel st = (Some ([], None, Some err), st)) ∧
  (∀ zone err (st : St) fuel,
     NewRequest (client s) "GET" ("zones/" +:+ zone) None = inr err →
     Get s zone fuel st = (Some (None, None, Some err), st)) ∧
  (∀ (z : Zone') err (st : St),
     NewRequest (client s) "PUT" ("zones/" +:+ Zone z) (Some z) = inr err →
     Create s z st = ((z, None, Some err), st)) ∧
  (∀ (z : Zone') err (st : St),
     NewRequest (client s) "POST" ("zones/" +:+ Zone z) (Some z) = inr err →
     Update s z st = ((z, None, Some err), st)) ∧
  (∀ zone err (st : St),
     NewRequest (client s) "DELETE" ("zones/" +:+ zone) None = inr err →
     Delete s zone st = ((None, Some err), st)).
Proof.
  repeat split; intros * Hreq.
  - unfold List. by rewrite Hreq.
  - unfold Get. by rewrite Hreq.
  - unfold Create. by rewrite Hreq.
  - unfold Update. by rewrite Hreq.
  - unfold Delete. by rewrite Hreq.
Qed.

(** C10. When the executor's error is classified as a sentinel, the
    response the executor returned with that error is returned with the
    sentinel, and [Get] returns a nil zone.  More generally, [Get] returns
    a nil zone with every error; and whenever [Create], [Update] or
    [Delete] returns an error after sending its request, the response it
    returns is the one the executor returned with the failure. *)
Theorem sentinel_keeps_response :
  (∀ zone req resp v w w' log fuel,
     NewRequest (client s) "GET" ("zones/" +:+ zone) None = inl req →
     Do (client s) VZone req zeroZone w
       = (DoErr resp (Error "zone not found") v, w') →
     ∃ st',
       Get s zone fuel (mkState w log)
       = (Some (None, resp, Some ErrZoneMissing), st')) ∧
  (∀ (z : Zone') req resp z' w w' log,
     NewRequest (client s) "PUT" ("zones/" +:+ Zone z) (Some z) = inl req →
     Do (client s) VZonePtr req z w
       = (DoErr resp (Error "zone already exists") z', w') →
     ∃ zr st',
       Create s z (mkState w log) = ((zr, resp, Some ErrZoneExists), st')) ∧
  (∀ (z : Zone') req resp z' w w' log,
     NewRequest (client s) "POST" ("zones/" +:+ Zone z) (Some z) = inl req →
     Do (client s) VZonePtr req z w
       = (DoErr resp (Error "zone not found") z', w') →
     ∃ zr st',
       Update s z (mkState w log) = ((zr, resp, Some ErrZoneMissing), st')) ∧
  (∀ zone req resp v w w' log,
     NewRequest (client s) "DELETE" ("zones/" +:+ zone) None = inl req →
     Do (client s) VNil req () w
       = (DoErr resp (Error "zone not found") v, w') →
     ∃ st',
       Delete s zone (mkState w log) = ((resp, Some ErrZoneMissing), st')) ∧
  (∀ zone fuel (st : St) z r e st',
     Get s zone fuel st = (Some (z, r, Some e), st') → z = None) ∧
  (∀ (z : Zone') req (st : St) zr r e st',
     NewRequest (client s) "PUT" ("zones/" +:+ Zone z) (Some z) = inl req →
     Create s z st = ((zr, r, Some e), st') →
     ∃ err, Do (client s) VZonePtr req z (world st)
            = (DoErr r err zr, world st')) ∧
  (∀ (z : Zone') req (st : St) zr r e st',
     NewRequest (client s) "POST" ("zones/" +:+ Zone z) (Some z) = inl req →
     Update s z st = ((zr, r, Some e), st') →
     ∃ err, Do (client s) VZonePtr req z (world st)
            = (DoErr r err zr, world st')) ∧
  (∀ zone req (st : St) r e st',
     NewRequest (client s) "DELETE" ("zones/" +:+ zone) None = inl req →
     Delete s zone st = ((r, Some e), st') →
     ∃ err v, Do (client s) VNil req () (world st)
              = (DoErr r err v, world st')).
Proof.
  repeat split.
  - intros * Hreq Hdo. eexists.
    by rewrite (Get_first_call_fails _ _ _ _ _ _ _ log fuel Hreq Hdo).
  - intros * Hreq Hdo. eexists _, _.
    by rewrite (Create_call_fails _ _ _ _ _ _ _ log Hreq Hdo).
  - intros * Hreq Hdo. eexists _, _.
    by rewrite (Update_call_fails _ _ _ _ _ _ _ log Hreq Hdo).
  - intros * Hreq Hdo. eexists.
    by rewrite (Delete_call_fails _ _ _ _ _ _ _ log Hreq Hdo).
  - intros zone fuel st z r e st'. unfold Get.
    destruct (NewRequest _ _ _ _) as [req|err]; run; [|congruence].
    destruct (Do _ _ _ _ _) as [[resp z1|resp err v] w1]; [|congruence].
    destruct (FollowPagination _); [|congruence].
    destruct (Get_loop _ _ _ _ _) as [[[z2|err]|] st2]; congruence.
  - intros z req st zr r e st' Hreq. unfold Create. rewrite Hreq. run.
    destruct (Do _ _ _ _ _) as [[resp z1|resp err z1] w1];
      intros [= <- <- _ <-]; by eexists.
  - intros z req st zr r e st' Hreq. unfold Update. rewrite Hreq. run.
    destruct (Do _ _ _ _ _) as [[resp z1|resp err z1] w1];
      intros [= <- <- _ <-]; by eexists.
  - intros zone req st r e st' Hreq. unfold Delete. rewrite Hreq. run.
    destruct (Do _ _ _ _ _) as [[resp v|resp err v] w1];
      intros [= <- _ <-]; by eexists _, _.
Qed.

End Properties.

(** ** Further properties: what a result says about the walk *)

Section Walks.
Context {ZoneRecord ZoneConfig : Type} `{!Inhabited ZoneConfig}.
Context {Request OpaqueError Links World : Type}.
Variable s : ZonesService ZoneRecord ZoneConfig Request OpaqueError Links World.

Local Abbreviation Zone' := (dns_Zone ZoneRecord ZoneConfig).
Local Abbreviation St := (State Request World).

Ltac exec :=
  unfold mbind, M_bind, mret, M_ret, client_Do; simpl.
Ltac exec_in H :=
  unfold mbind, M_bind, mret, M_ret, client_Do in H; simpl in H.

(** *** Reading a walk off the outcome of a loop *)

Lemma List_loop_inv fuel : ∀ zl uri w log o (st' : St),
  List_loop s fuel zl uri (mkState w log) = (Some o, st') →
  ∃ ps uri2 w2,
    fetched s VZoneList uri w ps uri2 w2 ∧
    match o with
    | inl zl' =>
        uri2 = "" ∧ w2 = world st' ∧ length ps ≤ fuel ∧
        zl' = zl ++ concat (page_data <$> ps) ∧
        calls st' = log ++ (page_req <$> ps)
    | inr err =>
        ∃ reqs, fetch_fails s VZoneList uri2 w2 err reqs (world st') ∧
                length ps < fuel ∧
                calls st' = log ++ (page_req <$> ps) ++ reqs
    end.
Proof.
  induction fuel as [|fuel IH]; intros zl uri w log o st' Hrun.
  - simpl in Hrun. destruct (decide (uri = "")) as [->|Hne]; [|done].
    injection Hrun as <- <-. exists [], "", w. split; [constructor|].
    repeat split; simpl; [lia | by rewrite app_nil_r | by rewrite app_nil_r].
  - destruct (decide (uri = "")) as [->|Hne].
    { rewrite List_loop_done in Hrun. injection Hrun as <- <-.
      exists [], "", w. split; [constructor|].
      repeat split; simpl; [lia | by rewrite app_nil_r | by rewrite app_nil_r]. }
    rewrite List_loop_step in Hrun by done. unfold nextZones in Hrun.
    destruct (NewRequest (client s) "GET" uri None) as [req|err] eqn:Hreq.
    + exec_in Hrun.
      destruct (Do (client s) VZoneList req [] w)
        as [[resp v|resp err v] w1] eqn:Hdo.
      * rewrite appendEach_app in Hrun.
        apply IH in Hrun as (ps & uri2 & w2 & Hps & Ho).
        exists (mkPage (sh:=VZoneList) req resp v :: ps), uri2, w2.
        split; [by econstructor|].
        destruct o as [zl'|e].
        -- destruct Ho as (-> & -> & Hlen & -> & ->).
           repeat split; simpl; [lia | by rewrite <- app_assoc |
                                 by rewrite <- app_assoc].
        -- destruct Ho as (reqs & Hfail & Hlen & ->).
           exists reqs. repeat split; simpl; [done | lia |
                                              by rewrite <- app_assoc].
      * injection Hrun as <- <-. exists [], uri, w. split; [constructor|].
        exists [req]. split; [by eapply fails_Do|]. simpl. split; [lia|done].
    + exec_in Hrun. injection Hrun as <- <-.
      exists [], uri, w. split; [constructor|].
      exists []. split; [by apply fails_NewRequest|]. simpl.
      split; [lia | by rewrite app_nil_r].
Qed.

Lemma Get_loop_inv fuel : ∀ (z : Zone') uri w log o (st' : St),
  Get_loop s fuel z uri (mkState w log) = (Some o, st') →
  ∃ ps uri2 w2,
    fetched s VZone uri w ps uri2 w2 ∧
    match o with
    | inl z' =>
        uri2 = "" ∧ w2 = world st' ∧ length ps ≤ fuel ∧
        z' = mkZone (Zone z)
               (Records z ++ concat (Records <$> (page_data <$> ps)))
               (Config z) ∧
        calls st' = log ++ (page_req <$> ps)
    | inr err =>
        ∃ reqs, fetch_fails s VZone uri2 w2 err reqs (world st') ∧
                length ps < fuel ∧
                calls st' = log ++ (page_req <$> ps) ++ reqs
    end.
Proof.
  induction fuel as [|fuel IH]; intros z uri w log o st' Hrun.
  - simpl in Hrun. destruct (decide (uri = "")) as [->|Hne]; [|done].
    injection Hrun as <- <-. exists [], "", w. split; [constructor|].
    repeat split; simpl; [lia | destruct z; by rewrite app_nil_r |
                          by rewrite app_nil_r].
  - destruct (decide (uri = "")) as [->|Hne].
    { rewrite Get_loop_done in Hrun. injection Hrun as <- <-.
      exists [], "", w. split; [constructor|].
      repeat split; simpl; [lia | destruct z; by rewrite app_nil_r |
                            by rewrite app_nil_r]. }
    rewrite Get_loop_step in Hrun by done. unfold nextRecords in Hrun.
    destruct (NewRequest (client s) "GET" uri None) as [req|err] eqn:Hreq.
    + exec_in Hrun.
      destruct (Do (client s) VZone req zeroZone w)
        as [[resp v|resp err v] w1] eqn:Hdo.
      * rewrite appendEach_app in Hrun.
        apply IH in Hrun as (ps & uri2 & w2 & Hps & Ho).
        exists (mkPage (sh:=VZone) req resp v :: ps), uri2, w2.
        split; [by econstructor|].
        destruct o as [z'|e].
        -- destruct Ho as (-> & -> & Hlen & -> & ->).
           repeat split; simpl; [lia | by rewrite <- app_assoc |
                                 by rewrite <- app_assoc].
        -- destruct Ho as (reqs & Hfail & Hlen & ->).
           exists reqs. repeat split; simpl; [done | lia |
                                              by rewrite <- app_assoc].
      * injection Hrun as <- <-. exists [], uri, w. split; [constructor|].
        exists [req]. split; [by eapply fails_Do|]. simpl. split; [lia|done].
    + exec_in Hrun. injection Hrun as <- <-.
      exists [], uri, w. split; [constructor|].
      exists []. split; [by apply fails_NewRequest|]. simpl.
      split; [lia | by rewrite app_nil_r].
Qed.

(** *** What the walks send *)

Lemma List_loop_log fuel : ∀ zl uri (st : St),
  ∃ new,
    calls (List_loop s fuel zl uri st).2 = calls st ++ new ∧
    length new ≤ fuel ∧
    Forall (λ req, ∃ uri', NewRequest (client s) "GET" uri' None = inl req) new.
Proof.
  induction fuel as [|fuel IH]; intros zl uri [w log].
  - exists []. simpl. destruct (decide (uri = "")); simpl;
      by rewrite app_nil_r.
  - destruct (decide (uri = "")) as [->|Hne].
    { exists []. rewrite List_loop_done. simpl. rewrite app_nil_r.
      repeat split; [lia | constructor]. }
    rewrite List_loop_step by done. unfold nextZones.
    destruct (NewRequest (client s) "GET" uri None) as [req|err] eqn:Hreq.
    + exec. destruct (Do (client s) VZoneList req [] w)
        as [[resp v|resp err v] w1] eqn:Hdo.
      * destruct (IH (appendEach zl v) (nextLink (client s) resp)
                    (mkState w1 (log ++ [req]))) as (new & Hc & Hl & Hall).
        exists (req :: new). rewrite Hc. simpl. rewrite <- app_assoc.
        repeat split; [lia | constructor; eauto].
      * exists [req]. simpl. repeat split; [lia | constructor; eauto].
    + exists []. exec. rewrite app_nil_r. repeat split; [lia | constructor].
Qed.

Lemma Get_loop_log fuel : ∀ (z : Zone') uri (st : St),
  ∃ new,
    calls (Get_loop s fuel z uri st).2 = calls st ++ new ∧
    length new ≤ fuel ∧
    Forall (λ req, ∃ uri', NewRequest (client s) "GET" uri' None = inl req) new.
Proof.
  induction fuel as [|fuel IH]; intros z uri [w log].
  - exists []. simpl. destruct (decide (uri = "")); simpl;
      by rewrite app_nil_r.
  - destruct (decide (uri = "")) as [->|Hne].
    { exists []. rewrite Get_loop_done. simpl. rewrite app_nil_r.
      repeat split; [lia | constructor]. }
    rewrite Get_loop_step by done. unfold nextRecords.
    destruct (NewRequest (client s) "GET" uri None) as [req|err] eqn:Hreq.
    + exec. destruct (Do (client s) VZone req zeroZone w)
        as [[resp v|resp err v] w1] eqn:Hdo.
      * match goal with |- context [Get_loop s fuel ?z1 ?u ?st1] =>
          destruct (IH z1 u st1) as (new & Hc & Hl & Hall) end.
        exists (req :: new). rewrite Hc. simpl. rewrite <- app_assoc.
        repeat split; [lia | constructor; eauto].
      * exists [req]. simpl. repeat split; [lia | constructor; eauto].
    + exists []. exec. rewrite app_nil_r. repeat split; [lia | constructor].
Qed.

(** X1. Whatever the transport answers and however far the walk gets,
    [List] keeps the log it was given and adds to it the first request and
    at most one request per loop iteration, each of them a GET without
    body. *)
Theorem List_sends_only_bodyless_GETs fuel (st : St) :
  ∃ new,
    calls (List s fuel st).2 = calls st ++ new ∧
    length new ≤ 1 + fuel ∧
    Forall (λ req, ∃ uri, NewRequest (client s) "GET" uri None = inl req) new.
Proof.
  destruct st as [w log]. unfold List.
  destruct (NewRequest (client s) "GET" "zones" None) as [req|err] eqn:Hreq.
  - exec. destruct (Do (client s) VZoneList req [] w)
      as [[resp zl|resp err v] w1] eqn:Hdo.
    + destruct (FollowPagination (client s)).
      * destruct (List_loop_log fuel zl (nextLink (client s) resp)
                    (mkState w1 (log ++ [req]))) as (new & Hc & Hl & Hall).
        exists (req :: new).
        destruct (List_loop s fuel zl _ _) as [[[zl'|e]|] st2];
          simpl in *; rewrite Hc, <- app_assoc;
          (repeat split; [lia | constructor; eauto]).
      * exists [req]. simpl. repeat split; [lia | constructor; eauto].
    + exists [req]. simpl. repeat split; [lia | constructor; eauto].
  - exists []. exec. rewrite app_nil_r. repeat split; [lia | constructor].
Qed.

(** X2. The same for [Get]: it only adds GETs without body to the log, at
    most one more than the loop ran. *)
Theorem Get_sends_only_bodyless_GETs zone fuel (st : St) :
  ∃ new,
    calls (Get s zone fuel st).2 = calls st ++ new ∧
    length new ≤ 1 + fuel ∧
    Forall (λ req, ∃ uri, NewRequest (client s) "GET" uri None = inl req) new.
Proof.
  destruct st as [w log]. unfold Get.
  destruct (NewRequest (client s) "GET" ("zones/" +:+ zone) None)
    as [req|err] eqn:Hreq.
  - exec. destruct (Do (client s) VZone req zeroZone w)
      as [[resp z|resp err v] w1] eqn:Hdo.
    + destruct (FollowPagination (client s)).
      * destruct (Get_loop_log fuel z (nextLink (client s) resp)
                    (mkState w1 (log ++ [req]))) as (new & Hc & Hl & Hall).
        exists (req :: new).
        destruct (Get_loop s fuel z _ _) as [[[z'|e]|] st2];
          simpl in *; rewrite Hc, <- app_assoc;
          (repeat split; [lia | constructor; eauto]).
      * exists [req]. simpl. repeat split; [lia | constructor; eauto].
    + exists [req]. simpl. repeat split; [lia | constructor; eauto].
  - exists []. exec. rewrite app_nil_r. repeat split; [lia | constructor].
Qed.

(** X3. A [List] that follows pagination and returns no error has walked
    to the end: the first request was built and served, every follow-up
    page was served, the last response announced no further page, and the
    result is the concatenation of all pages; the log holds exactly these
    requests. *)
Theorem List_success_means_complete_walk fuel w log zl r (st' : St) :
  FollowPagination (client s) = true →
  List s fuel (mkState w log) = (Some (zl, r, None), st') →
  ∃ req resp1 zl1 w1 ps,
    NewRequest (client s) "GET" "zones" None = inl req ∧
    Do (client s) VZoneList req [] w = (DoOk resp1 zl1, w1) ∧
    fetched s VZoneList (nextLink (client s) resp1) w1 ps "" (world st') ∧
    length ps ≤ fuel ∧
    r = Some resp1 ∧
    zl = concat (zl1 :: (page_data <$> ps)) ∧
    calls st' = log ++ req :: (page_req <$> ps).
Proof.
  intros Hfollow. unfold List.
  destruct (NewRequest (client s) "GET" "zones" None) as [req|err] eqn:Hreq;
    [|done].
  exec. destruct (Do (client s) VZoneList req [] w)
    as [[resp1 zl1|resp err v] w1] eqn:Hdo; [|done].
  rewrite Hfollow.
  destruct (List_loop s fuel zl1 _ _) as [[[zl'|e]|] st2] eqn:Hloop; try done.
  intros [= <- <- <-].
  apply List_loop_inv in Hloop as (ps & uri2 & w2 & Hps & -> & -> & Hlen & -> & Hc).
  exists req, resp1, zl1, w1, ps. repeat split; try done.
  by rewrite Hc, <- app_assoc.
Qed.

(** X4. A [Get] that follows pagination and returns no error has walked
    to the end as well, and the zone it returns is the first page's zone
    with the records of all follow-up pages appended. *)
Theorem Get_success_means_complete_walk zone fuel w log z r (st' : St) :
  FollowPagination (client s) = true →
  Get s zone fuel (mkState w log) = (Some (z, r, None), st') →
  ∃ req resp1 z1 w1 ps,
    NewRequest (client s) "GET" ("zones/" +:+ zone) None = inl req ∧
    Do (client s) VZone req zeroZone w = (DoOk resp1 z1, w1) ∧
    fetched s VZone (nextLink (client s) resp1) w1 ps "" (world st') ∧
    length ps ≤ fuel ∧
    r = Some resp1 ∧
    z = Some (mkZone (Zone z1)
                (Records z1 ++ concat (Records <$> (page_data <$> ps)))
                (Config z1)) ∧
    calls st' = log ++ req :: (page_req <$> ps).
Proof.
  intros Hfollow. unfold Get.
  destruct (NewRequest (client s) "GET" ("zones/" +:+ zone) None)
    as [req|err] eqn:Hreq; [|done].
  exec. destruct (Do (client s) VZone req zeroZone w)
    as [[resp1 z1|resp err v] w1] eqn:Hdo; [|done].
  rewrite Hfollow.
  destruct (Get_loop s fuel z1 _ _) as [[[z'|e]|] st2] eqn:Hloop; try done.
  intros [= <- <- <-].
  apply Get_loop_inv in Hloop as (ps & uri2 & w2 & Hps & -> & -> & Hlen & -> & Hc).
  exists req, resp1, z1, w1, ps. repeat split; try done.
  by rewrite Hc, <- app_assoc.
Qed.

(** *** Where errors come from *)

Lemma classifyMissing_sentinel_iff (err : error OpaqueError) :
  classifyMissing err = ErrZoneMissing
  ↔ err = Error "zone not found" ∨ err = ErrZoneMissing.
Proof.
  destruct err as [m| | |e]; simpl.
  - destruct (decide (m = "zone not found")) as [->|Hne].
    + split; [by left | done].
    + split; [done | by intros [[= ->]|]].
  - split; [done | by intros [|]].
  - split; [by right | done].
  - split; [done | by intros [|]].
Qed.

Lemma classifyExists_sentinel_iff (err : error OpaqueError) :
  classifyExists err = ErrZoneExists
  ↔ err = Error "zone already exists" ∨ err = ErrZoneExists.
Proof.
  destruct err as [m| | |e]; simpl.
  - destruct (decide (m = "zone already exists")) as [->|Hne].
    + split; [by left | done].
    + split; [done | by intros [[= ->]|]].
  - split; [by right | done].
  - split; [done | by intros [|]].
  - split; [done | by intros [|]].
Qed.

Lemma classifyMissing_cases (err : error OpaqueError) :
  classifyMissing err = err ∨ classifyMissing err = ErrZoneMissing.
Proof.
  destruct err as [m| | |e]; simpl; try by left.
  destruct (decide (m = "zone not found")); [by right | by left].
Qed.

Lemma classifyExists_cases (err : error OpaqueError) :
  classifyExists err = err ∨ classifyExists err = ErrZoneExists.
Proof.
  destruct err as [m| | |e]; simpl; try by left.
  destruct (decide (m = "zone already exists")); [by right | by left].
Qed.

Lemma fetch_fails_error (P : error OpaqueError → Prop) sh uri w err reqs w' :
  (∀ m p b e, NewRequest (client s) m p b = inr e → P e) →
  (∀ sh req v w resp e v' w',
     Do (client s) sh req v w = (DoErr resp e v', w') → P e) →
  fetch_fails s sh uri w err reqs w' → P err.
Proof. intros HN HD [e _ Hreq | req resp e v w1 _ Hreq Hdo]; eauto. Qed.

(** X5. The operations invent no error besides their sentinel: if every
    error of [NewRequest] and of [Do] has a property, then so has every
    error [List] returns, every error [Get], [Update] or [Delete] returns
    other than [ErrZoneMissing], and every error [Create] returns other
    than [ErrZoneExists]. *)
Theorem errors_come_from_the_client (P : error OpaqueError → Prop) :
  (∀ m p b e, NewRequest (client s) m p b = inr e → P e) →
  (∀ sh req v w resp e v' w',
     Do (client s) sh req v w = (DoErr resp e v', w') → P e) →
  (∀ fuel (st : St) zl r e st',
     List s fuel st = (Some (zl, r, Some e), st') → P e) ∧
  (∀ zone fuel (st : St) z r e st',
     Get s zone fuel st = (Some (z, r, Some e), st') →
     P e ∨ e = ErrZoneMissing) ∧
  (∀ (z : Zone') (st : St) zr r e st',
     Create s z st = ((zr, r, Some e), st') → P e ∨ e = ErrZoneExists) ∧
  (∀ (z : Zone') (st : St) zr r e st',
     Update s z st = ((zr, r, Some e), st') → P e ∨ e = ErrZoneMissing) ∧
  (∀ zone (st : St) r e st',
     Delete s zone st = ((r, Some e), st') → P e ∨ e = ErrZoneMissing).
Proof.
  intros HN HD. repeat split.
  - intros fuel [w log] zl r e st'. unfold List.
    destruct (NewRequest _ _ _ _) as [req|err] eqn:Hreq; exec.
    2:{ intros [= _ _ <- _]. eauto. }
    destruct (Do _ _ _ _ _) as [[resp zl1|resp err v] w1] eqn:Hdo.
    2:{ intros [= _ _ <- _]. eauto. }
    destruct (FollowPagination _); [|done].
    destruct (List_loop _ _ _ _ _) as [[[zl'|err]|] st2] eqn:Hloop; try done.
    intros [= _ _ <- _].
    apply List_loop_inv in Hloop as (ps & uri2 & w2 & _ & reqs & Hfail & _).
    by eapply fetch_fails_error.
  - intros zone fuel [w log] z r e st'. unfold Get.
    destruct (NewRequest _ _ _ _) as [req|err] eqn:Hreq; exec.
    2:{ intros [= _ _ <- _]. eauto. }
    destruct (Do _ _ _ _ _) as [[resp z1|resp err v] w1] eqn:Hdo.
    2:{ intros [= _ _ <- _].
        destruct (classifyMissing_cases err) as [->| ->]; eauto. }
    destruct (FollowPagination _); [|done].
    destruct (Get_loop _ _ _ _ _) as [[[z'|err]|] st2] eqn:Hloop; try done.
    intros [= _ _ <- _]. left.
    apply Get_loop_inv in Hloop as (ps & uri2 & w2 & _ & reqs & Hfail & _).
    by eapply fetch_fails_error.
  - intros z st zr r e st'. unfold Create.
    destruct (NewRequest _ _ _ _) as [req|err] eqn:Hreq; exec.
    2:{ intros [= _ _ <- _]. eauto. }
    destruct (Do _ _ _ _ _) as [[resp z1|resp err v] w1] eqn:Hdo; [done|].
    intros [= _ _ <- _]. destruct (classifyExists_cases err) as [->| ->]; eauto.
  - intros z st zr r e st'. unfold Update.
    destruct (NewRequest _ _ _ _) as [req|err] eqn:Hreq; exec.
    2:{ intros [= _ _ <- _]. eauto. }
    destruct (Do _ _ _ _ _) as [[resp z1|resp err v] w1] eqn:Hdo; [done|].
    intros [= _ _ <- _]. destruct (classifyMissing_cases err) as [->| ->]; eauto.
  - intros zone st r e st'. unfold Delete.
    destruct (NewRequest _ _ _ _) as [req|err] eqn:Hreq; exec.
    2:{ intros [= _ <- _]. eauto. }
    destruct (Do _ _ _ _ _) as [[resp z1|resp err v] w1] eqn:Hdo; [done|].
    intros [= _ <- _]. destruct (classifyMissing_cases err) as [->| ->]; eauto.
Qed.

(** X6. [Get] classifies the error of its first request only: when a
    follow-up page fails with the structured error "zone not found", that
    error is returned as it is, not as [ErrZoneMissing]. *)
Theorem Get_follow_up_not_found_is_not_classified
    zone req resp1 z1 w w1 ps uri w2 reqs w' log fuel :
  FollowPagination (client s) = true →
  NewRequest (client s) "GET" ("zones/" +:+ zone) None = inl req →
  Do (client s) VZone req zeroZone w = (DoOk resp1 z1, w1) →
  fetched s VZone (nextLink (client s) resp1) w1 ps uri w2 →
  fetch_fails s VZone uri w2 (Error "zone not found") reqs w' →
  length ps < fuel →
  ∃ e st',
    Get s zone fuel (mkState w log) = (Some (None, Some resp1, Some e), st') ∧
    e = Error "zone not found" ∧
    e ≠ ErrZoneMissing.
Proof.
  intros Hfollow Hreq Hdo Hps Hfail Hfuel. eexists _, _. split; [|done].
  by rewrite (Get_walk_fails _ _ _ _ _ _ _ _ _ _ _ _ _ log _
                Hfollow Hreq Hdo Hps Hfail Hfuel).
Qed.

(** X7. The sentinels stand for exactly one message.  Once its request is
    built, [Create] returns [ErrZoneExists] if and only if the executor
    failed with the structured error "zone already exists" (or with the
    sentinel itself); [Update] and [Delete] return [ErrZoneMissing] if
    and only if it failed with "zone not found" (or with that sentinel). *)
Theorem sentinel_iff_exact_message :
  (∀ (z : Zone') req (st : St),
     NewRequest (client s) "PUT" ("zones/" +:+ Zone z) (Some z) = inl req →
     (Create s z st).1.2 = Some ErrZoneExists
     ↔ ∃ resp err v w',
         Do (client s) VZonePtr req z (world st) = (DoErr resp err v, w') ∧
         (err = Error "zone already exists" ∨ err = ErrZoneExists)) ∧
  (∀ (z : Zone') req (st : St),
     NewRequest (client s) "POST" ("zones/" +:+ Zone z) (Some z) = inl req →
     (Update s z st).1.2 = Some ErrZoneMissing
     ↔ ∃ resp err v w',
         Do (client s) VZonePtr req z (world st) = (DoErr resp err v, w') ∧
         (err = Error "zone not found" ∨ err = ErrZoneMissing)) ∧
  (∀ zone req (st : St),
     NewRequest (client s) "DELETE" ("zones/" +:+ zone) None = inl req →
     (Delete s zone st).1.2 = Some ErrZoneMissing
     ↔ ∃ resp err v w',
         Do (client s) VNil req () (world st) = (DoErr resp err v, w') ∧
         (err = Error "zone not found" ∨ err = ErrZoneMissing)).
Proof.
  split; [|split].
  - intros z req st Hreq. unfold Create. rewrite Hreq. exec.
    destruct (Do _ _ _ _ _) as [[resp z1|resp err v] w1]; simpl.
    + split; [done | by intros (? & ? & ? & ? & [=] & _)].
    + split.
      * intros [= Hc]. apply classifyExists_sentinel_iff in Hc. eauto 10.
      * intros (? & ? & ? & ? & [= <- <- <- <-] & Herr).
        f_equal. by apply classifyExists_sentinel_iff.
  - intros z req st Hreq. unfold Update. rewrite Hreq. exec.
    destruct (Do _ _ _ _ _) as [[resp z1|resp err v] w1]; simpl.
    + split; [done | by intros (? & ? & ? & ? & [=] & _)].
    + split.
      * intros [= Hc]. apply classifyMissing_sentinel_iff in Hc. eauto 10.
      * intros (? & ? & ? & ? & [= <- <- <- <-] & Herr).
        f_equal. by apply classifyMissing_sentinel_iff.
  - intros zone req st Hreq. unfold Delete. rewrite Hreq. exec.
    destruct (Do _ _ _ _ _) as [[resp z1|resp err v] w1]; simpl.
    + split; [done | by intros (? & ? & ? & ? & [=] & _)].
    + split.
      * intros [= Hc]. apply classifyMissing_sentinel_iff in Hc. eauto 10.
      * intros (? & ? & ? & ? & [= <- <- <- <-] & Herr).
        f_equal. by apply classifyMissing_sentinel_iff.
Qed.

(** *** What a result looks like *)

(** X8. No operation returns a nil response together with a nil error,
    and [Get] returns no nil zone together with a nil error; [List]
    returns the nil list with every error. *)
Theorem results_are_well_formed :
  (∀ fuel (st : St) zl r st',
     List s fuel st = (Some (zl, r, None), st') → ∃ resp, r = Some resp) ∧
  (∀ fuel (st : St) zl r e st',
     List s fuel st = (Some (zl, r, Some e), st') → zl = []) ∧
  (∀ zone fuel (st : St) z r st',
     Get s zone fuel st = (Some (z, r, None), st') →
     (∃ z0, z = Some z0) ∧ ∃ resp, r = Some resp) ∧
  (∀ (z : Zone') (st : St) zr r st',
     Create s z st = ((zr, r, None), st') → ∃ resp, r = Some resp) ∧
  (∀ (z : Zone') (st : St) zr r st',
     Update s z st = ((zr, r, None), st') → ∃ resp, r = Some resp) ∧
  (∀ zone (st : St) r st',
     Delete s zone st = ((r, None), st') → ∃ resp, r = Some resp).
Proof.
  refine (conj _ (conj _ (conj _ (conj _ (conj _ _))))).
  - intros fuel st zl r st'. unfold List.
    destruct (NewRequest _ _ _ _) as [req|err]; exec; [|done].
    destruct (Do _ _ _ _ _) as [[resp zl1|resp err v] w1]; [|done].
    destruct (FollowPagination _); [|intros [= _ <- _]; eauto].
    destruct (List_loop _ _ _ _ _) as [[[zl'|err]|] st2]; try done.
    intros [= _ <- _]. eauto.
  - intros fuel st zl r e st'. unfold List.
    destruct (NewRequest _ _ _ _) as [req|err]; exec; [|congruence].
    destruct (Do _ _ _ _ _) as [[resp zl1|resp err v] w1]; [|congruence].
    destruct (FollowPagination _); [|congruence].
    destruct (List_loop _ _ _ _ _) as [[[zl'|err]|] st2]; congruence.
  - intros zone fuel st z r st'. unfold Get.
    destruct (NewRequest _ _ _ _) as [req|err]; exec; [|done].
    destruct (Do _ _ _ _ _) as [[resp z1|resp err v] w1]; [|done].
    destruct (FollowPagination _); [|intros [= <- <- _]; eauto].
    destruct (Get_loop _ _ _ _ _) as [[[z'|err]|] st2]; try done.
    intros [= <- <- _]. eauto.
  - intros z st zr r st'. unfold Create.
    destruct (NewRequest _ _ _ _) as [req|err]; exec; [|done].
    destruct (Do _ _ _ _ _) as [[resp z1|resp err v] w1]; [|done].
    intros [= _ <- _]. eauto.
  - intros z st zr r st'. unfold Update.
    destruct (NewRequest _ _ _ _) as [req|err]; exec; [|done].
    destruct (Do _ _ _ _ _) as [[resp z1|resp err v] w1]; [|done].
    intros [= _ <- _]. eauto.
  - intros zone st r st'. unfold Delete.
    destruct (NewRequest _ _ _ _) as [req|err]; exec; [|done].
    destruct (Do _ _ _ _ _) as [[resp z1|resp err v] w1]; [|done].
    intros [= <- _]. eauto.
Qed.

(** X9. [Create], [Update] and [Delete] do not retry: once the request is
    built it is executed exactly once, whether the executor succeeds or
    fails, and the transport is left as that one call left it. *)
Theorem mutators_execute_one_request :
  (∀ (z : Zone') req (st : St),
     NewRequest (client s) "PUT" ("zones/" +:+ Zone z) (Some z) = inl req →
     calls (Create s z st).2 = calls st ++ [req] ∧
     world (Create s z st).2
     = (Do (client s) VZonePtr req z (world st)).2) ∧
  (∀ (z : Zone') req (st : St),
     NewRequest (client s) "POST" ("zones/" +:+ Zone z) (Some z) = inl req →
     calls (Update s z st).2 = calls st ++ [req] ∧
     world (Update s z st).2
     = (Do (client s) VZonePtr req z (world st)).2) ∧
  (∀ zone req (st : St),
     NewRequest (client s) "DELETE" ("zones/" +:+ zone) None = inl req →
     calls (Delete s zone st).2 = calls st ++ [req] ∧
     world (Delete s zone st).2 = (Do (client s) VNil req () (world st)).2).
Proof.
  split; [|split].
  - intros z req st Hreq. unfold Create. rewrite Hreq. exec.
    by destruct (Do _ _ _ _ _) as [[resp z1|resp err v] w1].
  - intros z req st Hreq. unfold Update. rewrite Hreq. exec.
    by destruct (Do _ _ _ _ _) as [[resp z1|resp err v] w1].
  - intros zone req st Hreq. unfold Delete. rewrite Hreq. exec.
    by destruct (Do _ _ _ _ _) as [[resp z1|resp err v] w1].
Qed.

(** *** Fuel *)




(** *** Walks without end *)

Lemma List_loop_endless (P : string → World → Prop) :
  (∀ uri w, P uri w →
     uri ≠ "" ∧
     ∃ req resp v w1,
       NewRequest (client s) "GET" uri None = inl req ∧
       Do (client s) VZoneList req [] w = (DoOk resp v, w1) ∧
       P (nextLink (client s) resp) w1) →
  ∀ fuel zl uri w log,
    P uri w →
    (List_loop s fuel zl uri (mkState w log)).1 = None ∧
    length (calls (List_loop s fuel zl uri (mkState w log)).2)
    = length log + fuel.
Proof.
  intros Hstep. induction fuel as [|fuel IH]; intros zl uri w log HP;
    destruct (Hstep _ _ HP) as (Hne & req & resp & v & w1 & Hreq & Hdo & HP').
  - simpl. destruct (decide (uri = "")); [done|]. simpl. split; [done|lia].
  - rewrite List_loop_step by done.
    rewrite (nextZones_ok _ _ _ _ _ _ _ _ _ Hreq Hdo).
    destruct (IH (zl ++ v) _ _ (log ++ [req]) HP') as [-> ->].
    split; [done|]. rewrite length_app. simpl. lia.
Qed.

Lemma Get_loop_endless (P : string → World → Prop) :
  (∀ uri w, P uri w →
     uri ≠ "" ∧
     ∃ req resp v w1,
       NewRequest (client s) "GET" uri None = inl req ∧
       Do (client s) VZone req zeroZone w = (DoOk resp v, w1) ∧
       P (nextLink (client s) resp) w1) →
  ∀ fuel (z : Zone') uri w log,
    P uri w →
    (Get_loop s fuel z uri (mkState w log)).1 = None ∧
    length (calls (Get_loop s fuel z uri (mkState w log)).2)
    = length log + fuel.
Proof.
  intros Hstep. induction fuel as [|fuel IH]; intros z uri w log HP;
    destruct (Hstep _ _ HP) as (Hne & req & resp & v & w1 & Hreq & Hdo & HP').
  - simpl. destruct (decide (uri = "")); [done|]. simpl. split; [done|lia].
  - rewrite Get_loop_step by done.
    rewrite (nextRecords_ok _ _ _ _ _ _ _ _ _ Hreq Hdo).
    destruct (IH (mkZone (Zone z) (Records z ++ Records v) (Config z))
                _ _ (log ++ [req]) HP') as [-> ->].
    split; [done|]. rewrite length_app. simpl. lia.
Qed.

(** X11. [List] has no page limit and detects no cycle: when every
    continuation pointer reachable from the first response is served with
    a page that announces another one, [List] is still running after any
    number of loop iterations, having sent one request per iteration. *)
Theorem List_never_returns_on_endless_listing
    (P : string → World → Prop) req resp1 zl1 w w1 log fuel :
  (∀ uri w, P uri w →
     uri ≠ "" ∧
     ∃ req resp v w1,
       NewRequest (client s) "GET" uri None = inl req ∧
       Do (client s) VZoneList req [] w = (DoOk resp v, w1) ∧
       P (nextLink (client s) resp) w1) →
  FollowPagination (client s) = true →
  NewRequest (client s) "GET" "zones" None = inl req →
  Do (client s) VZoneList req [] w = (DoOk resp1 zl1, w1) →
  P (nextLink (client s) resp1) w1 →
  (List s fuel (mkState w log)).1 = None ∧
  length (calls (List s fuel (mkState w log)).2) = length log + 1 + fuel.
Proof.
  intros Hstep Hfollow Hreq Hdo HP. unfold List. rewrite Hreq. exec.
  rewrite Hdo, Hfollow.
  destruct (List_loop_endless P Hstep fuel zl1 _ _ (log ++ [req]) HP)
    as [Hnone Hlen].
  destruct (List_loop s fuel zl1 _ _) as [[o|] st2]; [done|].
  simpl in *. split; [done|]. rewrite Hlen, length_app. simpl. lia.
Qed.

(** X12. The same for [Get]: on a zone whose pages never end it is still
    running after any number of loop iterations. *)
Theorem Get_never_returns_on_endless_zone
    (P : string → World → Prop) zone req resp1 z1 w w1 log fuel :
  (∀ uri w, P uri w →
     uri ≠ "" ∧
     ∃ req resp v w1,
       NewRequest (client s) "GET" uri None = inl req ∧
       Do (client s) VZone req zeroZone w = (DoOk resp v, w1) ∧
       P (nextLink (client s) resp) w1) →
  FollowPagination (client s) = true →
  NewRequest (client s) "GET" ("zones/" +:+ zone) None = inl req →
  Do (client s) VZone req zeroZone w = (DoOk resp1 z1, w1) →
  P (nextLink (client s) resp1) w1 →
  (Get s zone fuel (mkState w log)).1 = None ∧
  length (calls (Get s zone fuel (mkState w log)).2) = length log + 1 + fuel.
Proof.
  intros Hstep Hfollow Hreq Hdo HP. unfold Get. rewrite Hreq. exec.
  rewrite Hdo, Hfollow.
  destruct (Get_loop_endless P Hstep fuel z1 _ _ (log ++ [req]) HP)
    as [Hnone Hlen].
  destruct (Get_loop s fuel z1 _ _) as [[o|] st2]; [done|].
  simpl in *. split; [done|]. rewrite Hlen, length_app. simpl. lia.
Qed.

(** *** The two helpers *)


(** X14. [nextRecords] touches nothing but the records of the zone, and
    those only by appending: the name and the configuration stay, a failed
    fetch leaves the zone as it was, and a page that decodes to another
    name or configuration does not change them. *)
Theorem nextRecords_only_appends_records (z : Zone') uri (st : St) :
  Zone (nextRecords s z uri st).1.1 = Zone z ∧
  Config (nextRecords s z uri st).1.1 = Config z ∧
  match (nextRecords s z uri st).1.2 with
  | inr _ => (nextRecords s z uri st).1.1 = z
  | inl _ => ∃ page, Records (nextRecords s z uri st).1.1 = Records z ++ page
  end.
Proof.
  unfold nextRecords. destruct (NewRequest _ _ _ _) as [req|err]; exec; [|done].
  destruct (Do _ _ _ _ _) as [[resp page|resp err v] w1]; simpl; [|done].
  repeat split. exists (Records page). apply appendEach_app.
Qed.

End Walks.

(** ** Worked examples on the scripted transports *)

Import Example.

(** Replies that announce different next pages are different responses. *)
Lemma reply_next_inj code next next' :
  reply code next = reply code next' → next = next'.
Proof.
  intros Heq.
  assert (Hget : Header_Get (Header (reply code next)) "Link"
                 = Header_Get (Header (reply code next')) "Link")
    by (by rewrite Heq).
  unfold reply, Header_Get in Hget. simpl in Hget.
  destruct (decide (next = "")) as [->|], (decide (next' = "")) as [->|];
    rewrite ?lookup_empty, ?lookup_singleton_eq in Hget; done.
Qed.

(** The three pages of the listing, with five requests to spare. *)
Lemma listing_fetched :
  fetched (svc true) VZoneList "zones?page=2" 4%nat [page2; page3] "" 2%nat.
Proof. repeat (econstructor; try done). Defined.

(** The connection drops after two requests: page 2 arrives, page 3 does
    not. *)
Lemma listing_cut_fetched :
  fetched (svc true) VZoneList "zones?page=2" 1%nat [page2] "zones?page=3" 0%nat.
Proof. repeat (econstructor; try done). Defined.

Lemma listing_cut_fails :
  fetch_fails (svc true) VZoneList "zones?page=3" 0%nat
    connectionReset [("GET", "zones?page=3")] 0%nat.
Proof. by eapply fails_Do. Defined.

Lemma zone_fetched :
  fetched (svc true) VZone "zones/a.com?page=2" 4%nat [zonePage2] "" 3%nat.
Proof. repeat (econstructor; try done). Defined.

Lemma zone_cut_fails :
  fetch_fails (svc true) VZone "zones/a.com?page=2" 0%nat
    connectionReset [("GET", "zones/a.com?page=2")] 0%nat.
Proof. by eapply fails_Do. Defined.

(** The listing in three pages: a.com and b.com, then c.com, then d.com. *)
Lemma List_returns_pages_in_fetch_order_witness :
  ∃ zl resp st',
    List (svc true) 2 (st0 5) = (Some (zl, resp, None), st') ∧
    zl = concat (listZones :: (page_data (sh:=VZoneList) <$> [page2; page3])) ∧
    length zl = sum_list_with length (listZones :: (page_data (sh:=VZoneList) <$> [page2; page3])) ∧
    ∀ i p, (listZones :: (page_data (sh:=VZoneList) <$> [page2; page3])) !! i = Some p →
      zl = concat (take i (listZones :: (page_data (sh:=VZoneList) <$> [page2; page3]))) ++ p
           ++ concat (drop (S i) (listZones :: (page_data (sh:=VZoneList) <$> [page2; page3]))).
Proof.
  apply (List_returns_pages_in_fetch_order (svc true)
           listReq listResp listZones 5%nat 4%nat [page2; page3] 2%nat [] 2).
  - reflexivity.
  - reflexivity.
  - reflexivity.
  - exact listing_fetched.
  - simpl. lia.
Defined.

(** The zone a.com in two pages; the second page carries another TTL,
    which is dropped. *)
Lemma Get_merges_records_keeps_first_page_fields_witness :
  ∃ z resp st',
    Get (svc true) "a.com" 1 (st0 5) = (Some (Some z, resp, None), st') ∧
    Records z
    = concat (Records <$> (zonePage1 :: (page_data (sh:=VZone) <$> [zonePage2]))) ∧
    Zone z = Zone zonePage1 ∧
    Config z = Config zonePage1.
Proof.
  apply (Get_merges_records_keeps_first_page_fields (svc true)
           "a.com" zoneReq zoneResp zonePage1 5%nat 4%nat [zonePage2] 3%nat [] 1).
  - reflexivity.
  - reflexivity.
  - reflexivity.
  - exact zone_fetched.
  - simpl. lia.
Defined.

(** The connection drops while page 3 of the listing is fetched. *)
Lemma List_follow_up_failure_returns_nil_witness :
  ∃ resp st',
    List (svc true) 2 (st0 2) = (Some ([], resp, Some connectionReset), st') ∧
    calls st'
    = [] ++ listReq :: (page_req <$> [page2]) ++ [("GET", "zones?page=3")].
Proof.
  apply (List_follow_up_failure_returns_nil (svc true)
           listReq listResp listZones 2%nat 1%nat [page2] "zones?page=3"
           0%nat connectionReset [("GET", "zones?page=3")] 0%nat [] 2).
  - reflexivity.
  - reflexivity.
  - reflexivity.
  - exact listing_cut_fetched.
  - exact listing_cut_fails.
  - simpl. lia.
Defined.

(** C4, as stated, fails: the connection drops after page 2 of the
    listing; page 2 is the last fetch that succeeded, yet the response
    returned with the error is the one of page 1. *)
Lemma List_failed_walk_response_is_not_last_succeeded :
  fetched (svc true) VZoneList (nextLink (client (svc true)) listResp) 1%nat
    [page2] "zones?page=3" 0%nat ∧
  fetch_fails (svc true) VZoneList "zones?page=3" 0%nat
    connectionReset [("GET", "zones?page=3")] 0%nat ∧
  List (svc true) 2 (st0 2)
  = (Some ([], Some listResp, Some connectionReset),
     mkState 0%nat [listReq; ("GET", "zones?page=2"); ("GET", "zones?page=3")]) ∧
  lastResponse listResp [page2] = page_resp page2 ∧
  listResp ≠ lastResponse listResp [page2].
Proof.
  split; [exact listing_cut_fetched|].
  split; [exact listing_cut_fails|].
  split; [reflexivity|]. split; [reflexivity|].
  intros Heq. by apply reply_next_inj in Heq.
Qed.

(** The listing cut after page 2, and the zone a.com cut after page 1. *)
Lemma failed_walk_returns_first_response_witness :
  (∃ st', List (svc true) 2 (st0 2)
          = (Some ([], Some listResp, Some connectionReset), st')) ∧
  (∃ st', Get (svc true) "a.com" 1 (st0 1)
          = (Some (None, Some zoneResp, Some connectionReset), st')).
Proof.
  destruct (failed_walk_returns_first_response (svc true) eq_refl) as [HL HG].
  split.
  - apply (HL listReq listResp listZones 2%nat 1%nat [page2] "zones?page=3"
             0%nat connectionReset [("GET", "zones?page=3")] 0%nat [] 2).
    + reflexivity.
    + reflexivity.
    + exact listing_cut_fetched.
    + exact listing_cut_fails.
    + simpl. lia.
  - apply (HG "a.com" zoneReq zoneResp zonePage1 1%nat 0%nat []
             "zones/a.com?page=2" 0%nat connectionReset
             [("GET", "zones/a.com?page=2")] 0%nat [] 1).
    + reflexivity.
    + reflexivity.
    + apply fetched_nil.
    + exact zone_cut_fails.
    + simpl. lia.
Defined.

(** C5, as stated, fails: all three pages of the listing arrive; the last
    response of the walk is the one of page 3, the response returned is
    the one of page 1. *)
Lemma List_success_response_is_not_last :
  fetched (svc true) VZoneList (nextLink (client (svc true)) listResp) 4%nat
    [page2; page3] "" 2%nat ∧
  List (svc true) 2 (st0 5)
  = (Some (listZones ++ page_data page2 ++ page_data page3, Some listResp, None),
     mkState 2%nat [listReq; page_req page2; page_req page3]) ∧
  lastResponse listResp [page2; page3] = page_resp page3 ∧
  listResp ≠ lastResponse listResp [page2; page3].
Proof.
  split; [exact listing_fetched|].
  split; [reflexivity|]. split; [reflexivity|].
  intros Heq. by apply reply_next_inj in Heq.
Qed.

(** The listing in three pages comes back with the response of page 1. *)
Lemma List_success_returns_first_response_witness :
  ∃ st',
    List (svc true) 2 (st0 5)
    = (Some (concat (listZones :: (page_data (sh:=VZoneList) <$> [page2; page3])),
             Some listResp, None), st').
Proof.
  apply (List_success_returns_first_response (svc true)
           listReq listResp listZones 5%nat 4%nat [page2; page3] 2%nat [] 2).
  - reflexivity.
  - reflexivity.
  - reflexivity.
  - exact listing_fetched.
  - simpl. lia.
Defined.

(** Both first responses announce a next page; it is not requested. *)
Lemma no_follow_returns_first_page_only_witness :
  nextLink (client (svc false)) listResp = "zones?page=2" ∧
  List (svc false) 0 (st0 5)
  = (Some (listZones, Some listResp, None), mkState 4%nat ([] ++ [listReq])) ∧
  nextLink (client (svc false)) zoneResp = "zones/a.com?page=2" ∧
  Get (svc false) "a.com" 0 (st0 5)
  = (Some (Some zonePage1, Some zoneResp, None), mkState 4%nat ([] ++ [zoneReq])).
Proof.
  destruct (no_follow_returns_first_page_only (svc false) eq_refl) as [HL HG].
  split; [reflexivity|]. split; [|split; [reflexivity|]].
  - apply (HL listReq listResp listZones 5%nat 4%nat [] 0); reflexivity.
  - apply (HG "a.com" zoneReq zoneResp zonePage1 5%nat 4%nat [] 0); reflexivity.
Defined.

(** Creating a.com, which exists, on the scripted server and on a dropped
    connection; the other operations on a transport that answers "zone
    already exists" to everything. *)
Lemma zone_exists_classified_by_Create_only_witness :
  (∃ e zr r st',
     Create (svc true) (zone "a.com" [] 0) (st0 5) = ((zr, r, Some e), st') ∧
     e = ErrZoneExists) ∧
  (∃ e zr r st',
     Create (svc true) (zone "a.com" [] 0) (st0 0) = ((zr, r, Some e), st') ∧
     e = connectionReset) ∧
  (∃ zl r st',
     List (svcFailing None (Error "zone already exists")) 0 (st0 0)
     = (Some (zl, r, Some (Error "zone already exists")), st')) ∧
  (∃ z r st',
     Get (svcFailing None (Error "zone already exists")) "a.com" 0 (st0 0)
     = (Some (z, r, Some (Error "zone already exists")), st')) ∧
  (∃ zr r st',
     Update (svcFailing None (Error "zone already exists"))
       (zone "a.com" [] 0) (st0 0)
     = ((zr, r, Some (Error "zone already exists")), st')) ∧
  (∃ r st',
     Delete (svcFailing None (Error "zone already exists")) "a.com" (st0 0)
     = ((r, Some (Error "zone already exists")), st')).
Proof.
  destruct (zone_exists_classified_by_Create_only (svc true))
    as (HC & _ & _ & _).
  destruct (zone_exists_classified_by_Create_only
              (svcFailing None (Error "zone already exists")))
    as (_ & _ & _ & HL & HG & HU & HD).
  repeat split.
  - destruct (HC (zone "a.com" [] 0) ("PUT", "zones/a.com")
                (Some (reply 400 "")) (Error "zone already exists")
                (zone "a.com" [] 0) 5%nat 4%nat [] eq_refl eq_refl)
      as (e & zr & r & st' & Heq & Hyes & _).
    exists e, zr, r, st'. split; [exact Heq|]. by apply Hyes.
  - destruct (HC (zone "a.com" [] 0) ("PUT", "zones/a.com")
                None connectionReset
                (zone "a.com" [] 0) 0%nat 0%nat [] eq_refl eq_refl)
      as (e & zr & r & st' & Heq & _ & Hno).
    exists e, zr, r, st'. split; [exact Heq|]. by apply Hno.
  - by apply (HL listReq None [] 0%nat 0%nat [] 0).
  - by apply (HG "a.com" zoneReq None zeroZone 0%nat 0%nat [] 0).
  - by apply (HU (zone "a.com" [] 0) ("POST", "zones/a.com") None
                (zone "a.com" [] 0) 0%nat 0%nat []).
  - by apply (HD "a.com" ("DELETE", "zones/a.com") None () 0%nat 0%nat []).
Defined.

(** The zone x.com does not exist on the scripted server. *)
Lemma zone_not_found_classified_as_missing_witness :
  (∃ e z r st',
     Get (svc true) "x.com" 0 (st0 5) = (Some (z, r, Some e), st') ∧
     e = ErrZoneMissing) ∧
  (∃ e zr r st',
     Update (svc true) (zone "x.com" [] 0) (st0 5) = ((zr, r, Some e), st') ∧
     e = ErrZoneMissing) ∧
  (∃ e r st',
     Delete (svc true) "x.com" (st0 5) = ((r, Some e), st') ∧
     e = ErrZoneMissing) ∧
  (∃ e r st',
     Delete (svc true) "x.com" (st0 0) = ((r, Some e), st') ∧
     e = connectionReset).
Proof.
  destruct (zone_not_found_classified_as_missing (svc true)) as (HG & HU & HD).
  repeat split.
  - destruct (HG "x.com" ("GET", "zones/x.com") (Some (reply 404 ""))
                (Error "zone not found") zeroZone 5%nat 4%nat [] 0
                eq_refl eq_refl)
      as (e & z & r & st' & Heq & Hyes & _).
    exists e, z, r, st'. split; [exact Heq|]. by apply Hyes.
  - destruct (HU (zone "x.com" [] 0) ("POST", "zones/x.com")
                (Some (reply 404 "")) (Error "zone not found")
                (zone "x.com" [] 0) 5%nat 4%nat [] eq_refl eq_refl)
      as (e & zr & r & st' & Heq & Hyes & _).
    exists e, zr, r, st'. split; [exact Heq|]. by apply Hyes.
  - destruct (HD "x.com" ("DELETE", "zones/x.com") (Some (reply 404 ""))
                (Error "zone not found") () 5%nat 4%nat [] eq_refl eq_refl)
      as (e & r & st' & Heq & Hyes & _).
    exists e, r, st'. split; [exact Heq|]. by apply Hyes.
  - destruct (HD "x.com" ("DELETE", "zones/x.com") None
                connectionReset () 0%nat 0%nat [] eq_refl eq_refl)
      as (e & r & st' & Heq & _ & Hno).
    exists e, r, st'. split; [exact Heq|]. by apply Hno.
Defined.

(** A client without endpoint, and a zone name with an invalid escape. *)
Lemma construction_error_returned_without_call_witness :
  List svcNoEndpoint 0 (st0 5) = (Some ([], None, Some invalidURL), st0 5) ∧
  Get (svc true) "a%com" 0 (st0 5) = (Some (None, None, Some invalidURL), st0 5) ∧
  Create (svc true) (zone "a%com" [] 0) (st0 5)
  = ((zone "a%com" [] 0, None, Some invalidURL), st0 5) ∧
  Update svcNoEndpoint (zone "a.com" [] 0) (st0 5)
  = ((zone "a.com" [] 0, None, Some invalidURL), st0 5) ∧
  Delete (svc true) "a%com" (st0 5) = ((None, Some invalidURL), st0 5).
Proof.
  destruct (construction_error_returned_without_call svcNoEndpoint)
    as (HL & _ & _ & HU & _).
  destruct (construction_error_returned_without_call (svc true))
    as (_ & HG & HC & _ & HD).
  split; [by apply HL|]. split; [by apply HG|]. split; [by apply HC|].
  split; [by apply HU | by apply HD].
Defined.

(** The 404 and 400 responses of the scripted server come back with the
    sentinels. *)
Lemma sentinel_keeps_response_witness :
  (∃ st', Get (svc true) "x.com" 0 (st0 5)
          = (Some (None, Some (reply 404 ""), Some ErrZoneMissing), st')) ∧
  (∃ zr st', Create (svc true) (zone "a.com" [] 0) (st0 5)
             = ((zr, Some (reply 400 ""), Some ErrZoneExists), st')) ∧
  (∃ zr st', Update (svc true) (zone "x.com" [] 0) (st0 5)
             = ((zr, Some (reply 404 ""), Some ErrZoneMissing), st')) ∧
  (∃ st', Delete (svc true) "x.com" (st0 5)
          = ((Some (reply 404 ""), Some ErrZoneMissing), st')) ∧
  (∃ err, Do (client (svc true)) VZonePtr ("PUT", "zones/a.com")
            (zone "a.com" [] 0) 5%nat
          = (DoErr (Some (reply 400 "")) err (zone "a.com" [] 0), 4%nat)).
Proof.
  destruct (sentinel_keeps_response (svc true))
    as (HG & HC & HU & HD & _ & HC' & _).
  repeat split.
  - by apply (HG "x.com" ("GET", "zones/x.com") (Some (reply 404 ""))
                zeroZone 5%nat 4%nat [] 0).
  - by apply (HC (zone "a.com" [] 0) ("PUT", "zones/a.com")
                (Some (reply 400 "")) (zone "a.com" [] 0) 5%nat 4%nat []).
  - by apply (HU (zone "x.com" [] 0) ("POST", "zones/x.com")
                (Some (reply 404 "")) (zone "x.com" [] 0) 5%nat 4%nat []).
  - by apply (HD "x.com" ("DELETE", "zones/x.com") (Some (reply 404 ""))
                () 5%nat 4%nat []).
  - by apply (HC' (zone "a.com" [] 0) ("PUT", "zones/a.com") (st0 5)
                (zone "a.com" [] 0) (Some (reply 400 "")) ErrZoneExists
                (mkState 4%nat [("PUT", "zones/a.com")])).
Defined.

(** *** Examples for the further properties *)

(** The listing in three pages, read back from the result of [List]. *)
Lemma List_success_means_complete_walk_witness :
  ∃ req resp1 zl1 w1 ps,
    NewRequest (client (svc true)) "GET" "zones" None = inl req ∧
    Do (client (svc true)) VZoneList req [] 5%nat = (DoOk resp1 zl1, w1) ∧
    fetched (svc true) VZoneList (nextLink (client (svc true)) resp1) w1 ps ""
      (world (mkState 2%nat [listReq; page_req page2; page_req page3])) ∧
    length ps ≤ 2 ∧
    Some listResp = Some resp1 ∧
    listZones ++ page_data page2 ++ page_data page3
    = concat (zl1 :: (page_data <$> ps)) ∧
    calls (mkState 2%nat [listReq; page_req page2; page_req page3])
    = [] ++ req :: (page_req <$> ps).
Proof.
  apply (List_success_means_complete_walk (svc true) 2 5%nat []
           (listZones ++ page_data page2 ++ page_data page3) (Some listResp)
           (mkState 2%nat [listReq; page_req page2; page_req page3])).
  - reflexivity.
  - reflexivity.
Defined.

(** The zone a.com in two pages, read back from the result of [Get]. *)
Lemma Get_success_means_complete_walk_witness :
  ∃ req resp1 z1 w1 ps,
    NewRequest (client (svc true)) "GET" ("zones/" +:+ "a.com") None = inl req ∧
    Do (client (svc true)) VZone req zeroZone 5%nat = (DoOk resp1 z1, w1) ∧
    fetched (svc true) VZone (nextLink (client (svc true)) resp1) w1 ps ""
      (world (mkState 3%nat [zoneReq; page_req zonePage2])) ∧
    length ps ≤ 1 ∧
    Some zoneResp = Some resp1 ∧
    Some (zone "a.com" ["www"; "mail"; "ftp"] 3600)
    = Some (mkZone (Zone z1)
              (Records z1 ++ concat (Records <$> (page_data <$> ps)))
              (Config z1)) ∧
    calls (mkState 3%nat [zoneReq; page_req zonePage2])
    = [] ++ req :: (page_req <$> ps).
Proof.
  apply (Get_success_means_complete_walk (svc true) "a.com" 1 5%nat []
           (Some (zone "a.com" ["www"; "mail"; "ftp"] 3600)) (Some zoneResp)
           (mkState 3%nat [zoneReq; page_req zonePage2])).
  - reflexivity.
  - reflexivity.
Defined.

(** The scripted server produces no sentinel itself. *)
Lemma scripted_server_errors sh req v w resp (e : Err) v' w' :
  Do (client (svc true)) sh req v w = (DoErr resp e v', w') →
  e ≠ ErrZoneExists ∧ e ≠ ErrZoneMissing.
Proof.
  simpl. unfold exDo. destruct w as [|w]; [by intros [= _ <- _ _]|].
  destruct req as [method url].
  destruct sh; simpl;
    repeat (match goal with |- context [String.eqb ?a ?b] =>
              destruct (String.eqb a b) end);
    unfold notFound; intros [= ]; by subst.
Defined.

Lemma scripted_client_errors method path body (e : Err) :
  NewRequest (client (svc true)) method path body = inr e →
  e ≠ ErrZoneExists ∧ e ≠ ErrZoneMissing.
Proof.
  simpl. unfold exNewRequest.
  destruct (true && validPath path); intros [= ]; by subst.
Defined.

(** On the scripted server [List] returns no sentinel at all, [Get],
    [Update] and [Delete] only [ErrZoneMissing], [Create] only
    [ErrZoneExists]. *)
Lemma errors_come_from_the_client_witness :
  (∀ fuel st zl r (e : Err) st',
     List (svc true) fuel st = (Some (zl, r, Some e), st') →
     e ≠ ErrZoneExists ∧ e ≠ ErrZoneMissing) ∧
  (∀ zone fuel st z r (e : Err) st',
     Get (svc true) zone fuel st = (Some (z, r, Some e), st') →
     (e ≠ ErrZoneExists ∧ e ≠ ErrZoneMissing) ∨ e = ErrZoneMissing) ∧
  (∀ z st zr r (e : Err) st',
     Create (svc true) z st = ((zr, r, Some e), st') →
     (e ≠ ErrZoneExists ∧ e ≠ ErrZoneMissing) ∨ e = ErrZoneExists) ∧
  (∀ z st zr r (e : Err) st',
     Update (svc true) z st = ((zr, r, Some e), st') →
     (e ≠ ErrZoneExists ∧ e ≠ ErrZoneMissing) ∨ e = ErrZoneMissing) ∧
  (∀ zone st r (e : Err) st',
     Delete (svc true) zone st = ((r, Some e), st') →
     (e ≠ ErrZoneExists ∧ e ≠ ErrZoneMissing) ∨ e = ErrZoneMissing).
Proof.
  apply (errors_come_from_the_client (svc true)
           (λ e, e ≠ ErrZoneExists ∧ e ≠ ErrZoneMissing)).
  - exact scripted_client_errors.
  - exact scripted_server_errors.
Defined.

(** The zone a.com disappears between its first and its second page. *)
Lemma Get_follow_up_not_found_is_not_classified_witness :
  ∃ (e : Err) st',
    Get svcVanishing "a.com" 1 (st0 0)
    = (Some (None, Some zoneResp, Some e), st') ∧
    e = Error "zone not found" ∧
    e ≠ ErrZoneMissing.
Proof.
  apply (Get_follow_up_not_found_is_not_classified svcVanishing
           "a.com" zoneReq zoneResp zonePage1 0%nat 1%nat []
           "zones/a.com?page=2" 1%nat [("GET", "zones/a.com?page=2")] 2%nat
           [] 1).
  - reflexivity.
  - reflexivity.
  - reflexivity.
  - apply fetched_nil.
  - by eapply fails_Do.
  - simpl. lia.
Defined.

(** Creating a.com, which exists; updating and deleting x.com, which
    does not. *)
Lemma sentinel_iff_exact_message_witness :
  (Create (svc true) (zone "a.com" [] 0) (st0 5)).1.2 = Some ErrZoneExists ∧
  (Update (svc true) (zone "x.com" [] 0) (st0 5)).1.2 = Some ErrZoneMissing ∧
  (Delete (svc true) "x.com" (st0 5)).1.2 = Some ErrZoneMissing ∧
  (∃ resp (err : Err) v w',
     Do (client (svc true)) VNil ("DELETE", "zones/x.com") () (world (st0 5))
     = (DoErr resp err v, w') ∧
     (err = Error "zone not found" ∨ err = ErrZoneMissing)).
Proof.
  destruct (sentinel_iff_exact_message (svc true)) as (HC & HU & HD).
  split; [|split; [|split]].
  - apply (HC (zone "a.com" [] 0) ("PUT", "zones/a.com") (st0 5) eq_refl).
    exists (Some (reply 400 "")), (Error "zone already exists"),
      (zone "a.com" [] 0), 4%nat.
    split; [reflexivity | by left].
  - apply (HU (zone "x.com" [] 0) ("POST", "zones/x.com") (st0 5) eq_refl).
    exists (Some (reply 404 "")), (Error "zone not found"),
      (zone "x.com" [] 0), 4%nat.
    split; [reflexivity | by left].
  - apply (HD "x.com" ("DELETE", "zones/x.com") (st0 5) eq_refl).
    exists (Some (reply 404 "")), (Error "zone not found"), (), 4%nat.
    split; [reflexivity | by left].
  - apply (HD "x.com" ("DELETE", "zones/x.com") (st0 5) eq_refl).
    reflexivity.
Defined.

(** The listing, the zone a.com, and a deletion, all without error; and
    the listing on a connection that drops at once. *)
Lemma results_are_well_formed_witness :
  (∃ resp, Some listResp = Some resp) ∧
  ([] : list ZoneT) = [] ∧
  ((∃ z0, Some (zone "a.com" ["www"; "mail"; "ftp"] 3600) = Some z0) ∧
   ∃ resp, Some zoneResp = Some resp) ∧
  (∃ resp, Some (reply 200 "") = Some resp).
Proof.
  destruct (results_are_well_formed (svc true))
    as (HL & HLe & HG & _ & _ & HD).
  split; [|split; [|split]].
  - apply (HL 2 (st0 5) (listZones ++ page_data page2 ++ page_data page3)
             (Some listResp)
             (mkState 2%nat [listReq; page_req page2; page_req page3])).
    reflexivity.
  - apply (HLe 2 (st0 0) [] None connectionReset (mkState 0%nat [listReq])).
    reflexivity.
  - apply (HG "a.com" 1 (st0 5)
             (Some (zone "a.com" ["www"; "mail"; "ftp"] 3600)) (Some zoneResp)
             (mkState 3%nat [zoneReq; page_req zonePage2])).
    reflexivity.
  - apply (HD "a.com" (st0 5) (Some (reply 200 ""))
             (mkState 4%nat [("DELETE", "zones/a.com")])).
    reflexivity.
Defined.

(** One PUT for a zone that exists, one POST and one DELETE for a zone
    that does not. *)
Lemma mutators_execute_one_request_witness :
  (calls (Create (svc true) (zone "a.com" [] 0) (st0 5)).2
   = calls (st0 5) ++ [("PUT", "zones/a.com")] ∧
   world (Create (svc true) (zone "a.com" [] 0) (st0 5)).2
   = (Do (client (svc true)) VZonePtr ("PUT", "zones/a.com")
        (zone "a.com" [] 0) (world (st0 5))).2) ∧
  (calls (Update (svc true) (zone "x.com" [] 0) (st0 5)).2
   = calls (st0 5) ++ [("POST", "zones/x.com")] ∧
   world (Update (svc true) (zone "x.com" [] 0) (st0 5)).2
   = (Do (client (svc true)) VZonePtr ("POST", "zones/x.com")
        (zone "x.com" [] 0) (world (st0 5))).2) ∧
  (calls (Delete (svc true) "" (st0 5)).2
   = calls (st0 5) ++ [("DELETE", "zones/")] ∧
   world (Delete (svc true) "" (st0 5)).2
   = (Do (client (svc true)) VNil ("DELETE", "zones/") () (world (st0 5))).2).
Proof.
  destruct (mutators_execute_one_request (svc true)) as (HC & HU & HD).
  split; [|split].
  - by apply (HC (zone "a.com" [] 0) ("PUT", "zones/a.com") (st0 5)).
  - by apply (HU (zone "x.com" [] 0) ("POST", "zones/x.com") (st0 5)).
  - by apply (HD "" ("DELETE", "zones/") (st0 5)).
Defined.


(** The listing whose pages point at themselves: seven iterations, eight
    requests, no result. *)
Lemma List_never_returns_on_endless_listing_witness :
  (List svcLooping 7 (mkState 0%nat [])).1 = None ∧
  length (calls (List svcLooping 7 (mkState 0%nat [])).2) = length ([] : list Req) + 1 + 7.
Proof.
  apply (List_never_returns_on_endless_listing svcLooping
           (λ uri _, uri = "zones") listReq (reply 200 "zones")
           [zone "a.com" [] 3600] 0%nat 1%nat [] 7).
  - intros uri w ->. split; [done|].
    exists listReq, (reply 200 "zones"), [zone "a.com" [] 3600], (S w).
    repeat split; reflexivity.
  - reflexivity.
  - reflexivity.
  - reflexivity.
  - reflexivity.
Defined.

Lemma Get_never_returns_on_endless_zone_witness :
  (Get svcLooping "a.com" 7 (mkState 0%nat [])).1 = None ∧
  length (calls (Get svcLooping "a.com" 7 (mkState 0%nat [])).2)
  = length ([] : list Req) + 1 + 7.
Proof.
  apply (Get_never_returns_on_endless_zone svcLooping
           (λ uri _, uri = "zones/a.com") "a.com" zoneReq
           (reply 200 "zones/a.com") (zone "a.com" ["www"] 3600)
           0%nat 1%nat [] 7).
  - intros uri w ->. split; [done|].
    exists zoneReq, (reply 200 "zones/a.com"), (zone "a.com" ["www"] 3600), (S w).
    repeat split; reflexivity.
  - reflexivity.
  - reflexivity.
  - reflexivity.
  - reflexivity.
Defined.

End rest.
